(** * check_browsers.py: the browser diagnostic script

    A shallow embedding of [src/agent-diva-gui/src-tauri/check_browsers.py]
    and the properties of its four steps: the launch probe, the scan of the
    well-known installation paths, the scan of the directories of PATH and
    the query of the default-browser controller.

    The script is a flat module: it prints to standard output and calls the
    platform ([webbrowser], [os.path], [os.environ]).  The platform,
    standard output included, is a record of oracles, the script a
    computation in a small monad that keeps a log of every line written and
    every platform call and that propagates a raised exception, that of a
    [print] included, until a [try]/[except] catches it. *)

From Stdlib Require Import String Ascii List Bool.
From stdpp Require Import base strings gmap.
Import ListNotations.

(** ** Text of the script *)

Module Msg.
Local Open Scope string_scope.

(** The character written [\n] in a Python literal. *)
Definition nl : string := String "010"%char EmptyString.

Definition title : string := "=== 浏览器检查 ===".
Definition hdr_launch : string := nl ++ "1. 尝试打开默认浏览器访问百度...".
Definition url : string := "https://www.baidu.com".
Definition launched : string := "已尝试打开浏览器".
(** [f"打开浏览器时出错: {e}"] *)
Definition launch_error (e : string) : string := "打开浏览器时出错: " ++ e.

Definition hdr_known : string := nl ++ "2. 检查常见浏览器安装路径...".
(** [f"✓ {browser_name}: {path}"] *)
Definition found_line (browser_name path : string) : string :=
  "✓ " ++ browser_name ++ ": " ++ path.
(** [f"✗ {browser_name}: 未找到"] *)
Definition not_found_line (browser_name : string) : string :=
  "✗ " ++ browser_name ++ ": 未找到".

Definition hdr_env : string := nl ++ "3. 检查环境变量中的浏览器...".
(** [f"✓ 在 PATH 中找到: {exe_path}"] *)
Definition path_match_line (exe_path : string) : string :=
  "✓ 在 PATH 中找到: " ++ exe_path.

Definition hdr_controller : string :=
  nl ++ "4. 尝试使用 webbrowser 模块获取浏览器信息...".
(** [f"默认浏览器控制器: {browser}"] *)
Definition controller_line (browser : string) : string :=
  "默认浏览器控制器: " ++ browser.
(** [f"获取浏览器信息时出错: {e}"] *)
Definition controller_error (e : string) : string :=
  "获取浏览器信息时出错: " ++ e.
End Msg.

(** ** The platform *)

(** The two families of hosts Python distinguishes in [os.name]. *)
Inductive Platform : Type := Windows | Posix.

(** [os.pathsep]: the separator of the entries of a path list. *)
Definition os_pathsep (p : Platform) : ascii :=
  match p with
  | Windows => ";"%char
  | Posix => ":"%char
  end.

(** The outcome of a platform call: it returns a value, or it raises an
    error, an instance of [Exception], of which the script only uses the
    text [str(e)]. *)
Inductive result (A : Type) : Type :=
| Returns (a : A)
| Raises (e : string).
Arguments Returns {A} a.
Arguments Raises {A} e.

(** Everything the script reads from and writes to its surroundings.  The
    file system and the environment do not change while the script runs.
    Standard output takes a line or raises ([UnicodeEncodeError] when its
    encoding cannot write the line, [OSError] when it is closed); it writes
    nothing of a line it raises on. *)
Record World : Type := mkWorld {
  host : Platform;                              (* the operating system *)
  argv : list string;                           (* sys.argv *)
  environ : gmap string string;                 (* os.environ *)
  fs_exists : string -> bool;                   (* os.stat succeeds *)
  fs_isdir : string -> bool;                    (* ... on a directory *)
  path_join : string -> string -> string;       (* os.path.join *)
  expanduser : string -> string;                (* os.path.expanduser *)
  open_outcome : string -> result bool;         (* webbrowser.open(url) *)
  get_outcome : result string;                  (* str(webbrowser.get()) *)
  stdout_write : string -> result unit          (* sys.stdout.write(line) *)
}.

(** [os.path.exists(p)] and [os.path.isdir(p)] never raise: a failing
    [os.stat] answers [False], and [os.stat] fails on the empty path on
    every host. *)
Definition path_exists (w : World) (p : string) : bool :=
  match p with
  | EmptyString => false
  | _ => fs_exists w p
  end.

Definition path_isdir (w : World) (p : string) : bool :=
  match p with
  | EmptyString => false
  | _ => fs_isdir w p
  end.

(** [os.environ.get(name, default)] *)
Definition environ_get (w : World) (name dflt : string) : string :=
  default dflt (environ w !! name).

(** ** Strings *)

(** [s.split(sep)] for a separator of one character: the pieces between
    the occurrences of [sep], empty pieces included; the empty string
    gives one empty piece. *)
Fixpoint split (s : string) (sep : ascii) : list string :=
  match s with
  | EmptyString => [EmptyString]
  | String c rest =>
      if Ascii.eqb c sep then EmptyString :: split rest sep
      else match split rest sep with
           | [] => [String c EmptyString]
           | piece :: pieces => String c piece :: pieces
           end
  end.

(** [sep.join(pieces)] *)
Fixpoint join (sep : ascii) (pieces : list string) : string :=
  match pieces with
  | [] => EmptyString
  | [piece] => piece
  | piece :: rest => piece +:+ String sep (join sep rest)
  end.

(** [c in s] *)
Fixpoint contains (c : ascii) (s : string) : bool :=
  match s with
  | EmptyString => false
  | String d rest => Ascii.eqb d c || contains c rest
  end.

(** ** The script monad *)

(** What the script does to its surroundings, in order. *)
Inductive event : Type :=
| EvPrint (line : string)     (* print(line) *)
| EvOpen (url : string)       (* webbrowser.open(url) *)
| EvGet                       (* webbrowser.get() *)
| EvExists (path : string)    (* os.path.exists(path) *)
| EvIsdir (path : string).    (* os.path.isdir(path) *)

Definition Script (A : Type) : Type := list event -> result A * list event.

Definition ret {A} (a : A) : Script A := fun log => (Returns a, log).

(** Sequencing: an exception raised by the first part skips the rest. *)
Definition bind {A B} (m : Script A) (k : A -> Script B) : Script B :=
  fun log =>
    match m log with
    | (Returns a, log') => k a log'
    | (Raises e, log') => (Raises e, log')
    end.

(** [try: body / except Exception as e: handler]: what the body did before
    it raised stays done. *)
Definition try_except {A} (body : Script A) (handler : string -> Script A)
  : Script A :=
  fun log =>
    match body log with
    | (Returns a, log') => (Returns a, log')
    | (Raises e, log') => handler e log'
    end.

Declare Scope script_scope.
Delimit Scope script_scope with script.
Bind Scope script_scope with Script.
Notation "x <- m ;; k" := (bind m (fun x => k))
  (at level 100, m at next level, right associativity) : script_scope.
Notation "m ;; k" := (bind m (fun _ => k))
  (at level 100, right associativity) : script_scope.
Local Open Scope script_scope.

(** [for x in xs: body(x)] *)
Fixpoint for_each {A} (xs : list A) (body : A -> Script unit) : Script unit :=
  match xs with
  | [] => ret tt
  | x :: rest => body x ;; for_each rest body
  end.

(** The lines written to standard output, one per [print]. *)
Fixpoint stdout (log : list event) : list string :=
  match log with
  | [] => []
  | EvPrint line :: rest => line :: stdout rest
  | _ :: rest => stdout rest
  end.

(** The exit status of the interpreter: 0 when the module ran to its end,
    1 when an exception reached the top level. *)
Definition exit_status {A} (r : result A) : nat :=
  match r with
  | Returns _ => 0
  | Raises _ => 1
  end.

(** ** The script *)

(** The candidate table: the items of a dict, in insertion order. *)
Definition table : Type := list (string * list string).

Definition browser_exes : list string :=
  ["chrome.exe"; "firefox.exe"; "msedge.exe"; "opera.exe"; "iexplore.exe"]%string.

Section Body.
Context (w : World).

Definition emit (e : event) : Script unit :=
  fun log => (Returns tt, log ++ [e]).

(** [print(line)]: the line is written, or standard output raises and
    nothing is written. *)
Definition print (line : string) : Script unit :=
  fun log =>
    match stdout_write w line with
    | Returns _ => emit (EvPrint line) log
    | Raises e => (Raises e, log)
    end.

Definition webbrowser_open (url : string) : Script bool :=
  fun log => (open_outcome w url, log ++ [EvOpen url]).

Definition webbrowser_get : Script string :=
  fun log => (get_outcome w, log ++ [EvGet]).

Definition os_path_exists (path : string) : Script bool :=
  fun log => (Returns (path_exists w path), log ++ [EvExists path]).

Definition os_path_isdir (path : string) : Script bool :=
  fun log => (Returns (path_isdir w path), log ++ [EvIsdir path]).

(** Step 1, lines 7-12. *)
Definition launch_probe : Script unit :=
  print Msg.hdr_launch ;;
  try_except
    (_ <- webbrowser_open Msg.url ;; print Msg.launched)
    (fun e => print (Msg.launch_error e)).

(** The dict literal of lines 15-33. *)
Definition browsers : table :=
  [ ("Chrome",
     [ "C:\Program Files\Google\Chrome\Application\chrome.exe";
       "C:\Program Files (x86)\Google\Chrome\Application\chrome.exe";
       expanduser w "~\AppData\Local\Google\Chrome\Application\chrome.exe" ]);
    ("Edge",
     [ "C:\Program Files (x86)\Microsoft\Edge\Application\msedge.exe";
       "C:\Program Files\Microsoft\Edge\Application\msedge.exe" ]);
    ("Firefox",
     [ "C:\Program Files\Mozilla Firefox\firefox.exe";
       "C:\Program Files (x86)\Mozilla Firefox\firefox.exe" ]);
    ("Opera",
     [ "C:\Program Files\Opera\launcher.exe";
       "C:\Program Files (x86)\Opera\launcher.exe" ]) ]%string.

(** The inner loop of lines 36-41; the value is the flag [found]. *)
Fixpoint first_existing (browser_name : string) (paths : list string)
  : Script bool :=
  match paths with
  | [] => ret false
  | path :: rest =>
      b <- os_path_exists path ;;
      if b then (print (Msg.found_line browser_name path) ;; ret true)
      else first_existing browser_name rest
  end.

(** The body of the outer loop, lines 36-43. *)
Definition scan_browser (item : string * list string) : Script unit :=
  let '(browser_name, paths) := item in
  found <- first_existing browser_name paths ;;
  if negb found then print (Msg.not_found_line browser_name) else ret tt.

(** Step 2 for a candidate table, lines 35-43. *)
Definition known_path_scan (browsers : table) : Script unit :=
  for_each browsers scan_browser.

(** Lines 46-47: the entries of PATH. *)
Definition env_path : string := environ_get w "PATH" "".
Definition paths : list string := split env_path ";".

(** Lines 53-55. *)
Definition scan_exe (path exe : string) : Script unit :=
  let exe_path := path_join w path exe in
  b <- os_path_exists exe_path ;;
  if b then print (Msg.path_match_line exe_path) else ret tt.

(** Lines 51-55. *)
Definition scan_dir (path : string) : Script unit :=
  d <- os_path_isdir path ;;
  if d then for_each browser_exes (scan_exe path) else ret tt.

(** The loop of lines 50-55 over a list of entries. *)
Definition scan_dirs (paths : list string) : Script unit :=
  for_each paths scan_dir.

(** Step 3, lines 45-55. *)
Definition path_env_scan : Script unit :=
  print Msg.hdr_env ;;
  scan_dirs paths.

(** Step 4, lines 57-62. *)
Definition controller_query : Script unit :=
  print Msg.hdr_controller ;;
  try_except
    (browser <- webbrowser_get ;; print (Msg.controller_line browser))
    (fun e => print (Msg.controller_error e)).

(** The module, with the candidate table as a parameter. *)
Definition script (browsers : table) : Script unit :=
  print Msg.title ;;
  launch_probe ;;
  print Msg.hdr_known ;;
  known_path_scan browsers ;;
  path_env_scan ;;
  controller_query.

(** The module as it is written. *)
Definition check_browsers : Script unit := script browsers.

End Body.

(** ** Notions the statements use *)

(** Step 3 as a reader of the spec would write it: the entries of PATH
    are separated by the path-list separator of the host, [os.pathsep]. *)
Definition platform_paths (w : World) : list string :=
  split (env_path w) (os_pathsep (host w)).

(** An occurrence of a browser executable: an entry of the list, taken with
    its position, that is a directory, and a file name of [browser_exes]
    that exists in it. *)
Definition is_occurrence (w : World) (o : string * string) : bool :=
  path_isdir w (fst o) && path_exists w (path_join w (fst o) (snd o)).

Definition occurrences (w : World) (entries : list string)
  : list (string * string) :=
  List.filter (is_occurrence w) (list_prod entries browser_exes).

(** The line a reader of the report finds for an occurrence: the mark, the
    fixed words and the joined path. *)
Definition occurrence_line (w : World) (o : string * string) : string :=
  ("✓ 在 PATH 中找到: " ++ path_join w (fst o) (snd o))%string.

(** Two runs in the same surroundings: the same environment, file system,
    platform services and standard output.  Nothing is asked of [argv], nor
    of [host]. *)
Definition same_surroundings (w1 w2 : World) : Prop :=
  environ w1 = environ w2 /\
  (forall p, fs_exists w1 p = fs_exists w2 p) /\
  (forall p, fs_isdir w1 p = fs_isdir w2 p) /\
  (forall a b, path_join w1 a b = path_join w2 a b) /\
  (forall p, expanduser w1 p = expanduser w2 p) /\
  (forall u, open_outcome w1 u = open_outcome w2 u) /\
  get_outcome w1 = get_outcome w2 /\
  (forall line, stdout_write w1 line = stdout_write w2 line).

(** Standard output takes the line. *)
Definition accepts (w : World) (line : string) : Prop :=
  stdout_write w line = Returns tt.

(** ** Sample surroundings *)

Module Sample.
Local Open Scope string_scope.

Definition mem (paths : list string) (p : string) : bool :=
  existsb (String.eqb p) paths.

(** Joining a directory and a file name with a backslash, as [ntpath]
    does for a directory that does not end in a separator. *)
Definition join_backslash (a b : string) : string := a ++ "\" ++ b.

(** Joining a directory that does not end in a slash and a file name, as
    [posixpath] does. *)
Definition join_slash (a b : string) : string := a ++ "/" ++ b.

(** A standard output that takes every line, such as a console. *)
Definition console (line : string) : result unit := Returns tt.

(** A standard output in strict UTF-8: it takes a line unless the line
    holds the byte 255, which no UTF-8 text holds and which comes from a
    file name that is not UTF-8. *)
Definition codec_error : string :=
  "'utf-8' codec can't encode character '\udcff': surrogates not allowed".

Definition utf8_strict (line : string) : result unit :=
  if contains "255"%char line then Raises codec_error else Returns tt.

(** A leading tilde becomes the home directory. *)
Definition expand (home p : string) : string :=
  match p with
  | String "~" rest => home ++ rest
  | _ => p
  end.

Definition chrome1 := "C:\Program Files\Google\Chrome\Application\chrome.exe".
Definition chrome2 :=
  "C:\Program Files (x86)\Google\Chrome\Application\chrome.exe".
Definition chrome3 :=
  "C:\Users\diva\AppData\Local\Google\Chrome\Application\chrome.exe".

(** A Windows host: Chrome is installed at its second and third candidate,
    two directories of PATH hold a [chrome.exe], a third entry of PATH is
    no directory, and both browser services raise. *)
Definition windows_host (args : list string) : World :=
  {| host := Windows;
     argv := args;
     environ := {[ "PATH" := "C:\bin;D:\gone;C:\tools" ]};
     fs_exists :=
       mem [chrome2; chrome3; "C:\bin"; "C:\tools";
            "C:\bin\chrome.exe"; "C:\tools\chrome.exe"];
     fs_isdir := mem ["C:\bin"; "C:\tools"];
     path_join := join_backslash;
     expanduser := expand "C:\Users\diva";
     open_outcome := fun _ => Raises "no browser registered";
     get_outcome := Raises "could not locate runnable browser";
     stdout_write := console |}.

(** A Linux host with the usual colon-separated PATH. *)
Definition linux_host : World :=
  {| host := Posix;
     argv := ["check_browsers.py"];
     environ := {[ "PATH" := "/usr/bin:/bin" ]};
     fs_exists := mem ["/usr/bin"; "/bin"; "/usr/bin/firefox.exe"];
     fs_isdir := mem ["/usr/bin"; "/bin"];
     path_join := join_slash;
     expanduser := fun p => p;
     open_outcome := fun _ => Returns true;
     get_outcome := Returns "<webbrowser.BackgroundBrowser object>";
     stdout_write := console |}.

(** A host with nothing installed, with the given environment, whose
    browser services succeed. *)
Definition bare_host (env : gmap string string) : World :=
  {| host := Windows;
     argv := ["check_browsers.py"];
     environ := env;
     fs_exists := fun _ => false;
     fs_isdir := fun _ => false;
     path_join := join_backslash;
     expanduser := expand "C:\Users\diva";
     open_outcome := fun _ => Returns true;
     get_outcome := Returns "<webbrowser.WindowsDefault object>";
     stdout_write := console |}.

(** A directory whose name is not UTF-8. *)
Definition odd_dir : string := "/opt/b" ++ String "255"%char "".

(** A Linux host whose PATH is that one directory, which holds a
    [chrome.exe]; its browser services succeed and its standard output is
    strict UTF-8. *)
Definition odd_path_host : World :=
  {| host := Posix;
     argv := ["check_browsers.py"];
     environ := {[ "PATH" := odd_dir ]};
     fs_exists := mem [odd_dir; odd_dir ++ "/chrome.exe"];
     fs_isdir := mem [odd_dir];
     path_join := join_slash;
     expanduser := fun p => p;
     open_outcome := fun _ => Returns true;
     get_outcome := Returns "<webbrowser.BackgroundBrowser object>";
     stdout_write := utf8_strict |}.

(** A Linux host with nothing installed whose launcher raises an error
    that names such a file; its standard output is strict UTF-8. *)
Definition odd_error : string :=
  "could not run the browser " ++ odd_dir ++ "/firefox".

Definition odd_error_host : World :=
  {| host := Posix;
     argv := ["check_browsers.py"];
     environ := {[ "PATH" := "/usr/bin" ]};
     fs_exists := mem ["/usr/bin"];
     fs_isdir := mem ["/usr/bin"];
     path_join := join_slash;
     expanduser := fun p => p;
     open_outcome := fun _ => Raises odd_error;
     get_outcome := Returns "<webbrowser.BackgroundBrowser object>";
     stdout_write := utf8_strict |}.

End Sample.

(** ** Notions for the whole report *)

(** The line of step 2 for a browser: the found line of the first candidate
    that exists, the not-found line when there is none. *)
Definition report_line (w : World) (item : string * list string) : string :=
  match List.find (path_exists w) (snd item) with
  | Some path => ("✓ " ++ fst item ++ ": " ++ path)%string
  | None => ("✗ " ++ fst item ++ ": 未找到")%string
  end.

(** The candidates that are looked at: those up to the first that exists,
    that one included. *)
Fixpoint checked (w : World) (candidates : list string) : list string :=
  match candidates with
  | [] => []
  | path :: rest =>
      path :: (if path_exists w path then [] else checked w rest)
  end.

(** What is asked about one entry of PATH: whether it is a directory, and
    when it is, whether each file name of [browser_exes] exists in it. *)
Definition dir_probes (w : World) (entry : string) : list event :=
  EvIsdir entry
  :: (if path_isdir w entry
      then map (fun exe => EvExists (path_join w entry exe)) browser_exes
      else []).

(** The platform calls of a log: every event but the prints. *)
Fixpoint probes (log : list event) : list event :=
  match log with
  | [] => []
  | EvPrint _ :: rest => probes rest
  | e :: rest => e :: probes rest
  end.

Definition is_service (e : event) : bool :=
  match e with
  | EvOpen _ | EvGet => true
  | _ => false
  end.

Definition is_isdir (e : event) : bool :=
  match e with
  | EvIsdir _ => true
  | _ => false
  end.

(** [s.count(c)] for a character. *)
Fixpoint count_char (c : ascii) (s : string) : nat :=
  match s with
  | EmptyString => 0
  | String d rest => (if Ascii.eqb d c then 1 else 0) + count_char c rest
  end.

(** The line of step 1 and the line of step 4, as a reader of the report
    finds them: the fixed words, followed by the text of the error or of
    the controller. *)
Definition launch_line (w : World) : string :=
  match open_outcome w Msg.url with
  | Returns _ => "已尝试打开浏览器"%string
  | Raises e => ("打开浏览器时出错: " ++ e)%string
  end.

Definition controller_report (w : World) : string :=
  match get_outcome w with
  | Returns browser => ("默认浏览器控制器: " ++ browser)%string
  | Raises e => ("获取浏览器信息时出错: " ++ e)%string
  end.

(** The lines of a whole run, in order. *)
Definition report (w : World) (t : table) : list string :=
  [Msg.title; Msg.hdr_launch; launch_line w]
  ++ Msg.hdr_known :: map (report_line w) t
  ++ Msg.hdr_env :: map (occurrence_line w) (occurrences w (paths w))
  ++ [Msg.hdr_controller; controller_report w].

(** Two hosts with the same environment and file system, whatever their
    browser services do. *)
Definition same_file_system (w1 w2 : World) : Prop :=
  environ w1 = environ w2 /\
  (forall p, fs_exists w1 p = fs_exists w2 p) /\
  (forall p, fs_isdir w1 p = fs_isdir w2 p) /\
  (forall a b, path_join w1 a b = path_join w2 a b).

(** The sample Windows host with a default browser registered: the same
    files and environment, and browser services that succeed. *)
Definition windows_host_with_default : World :=
  {| host := Windows;
     argv := [];
     environ := environ (Sample.windows_host []);
     fs_exists := fs_exists (Sample.windows_host []);
     fs_isdir := fs_isdir (Sample.windows_host []);
     path_join := path_join (Sample.windows_host []);
     expanduser := expanduser (Sample.windows_host []);
     open_outcome := fun _ => Returns true;
     get_outcome := Returns "<webbrowser.WindowsDefault object>"%string;
     stdout_write := Sample.console |}.

(** ** Running the monad *)

Lemma bind_returns {A B} (m : Script A) (k : A -> Script B) log a log' :
  m log = (Returns a, log') -> bind m k log = k a log'.
Proof. intros Hm. unfold bind. rewrite Hm. reflexivity. Qed.

Lemma bind_raises {A B} (m : Script A) (k : A -> Script B) log e log' :
  m log = (Raises e, log') -> bind m k log = (Raises e, log').
Proof. intros Hm. unfold bind. rewrite Hm. reflexivity. Qed.

(** A line that standard output takes is written; one it raises on is not,
    and the error goes on. *)
Lemma print_accepted w line log :
  accepts w line -> print w line log = (Returns tt, log ++ [EvPrint line]).
Proof. intros H. unfold print. rewrite H. reflexivity. Qed.

Lemma print_rejected w line e log :
  stdout_write w line = Raises e -> print w line log = (Raises e, log).
Proof. intros H. unfold print. rewrite H. reflexivity. Qed.

Lemma accepted_lines w lines :
  (forall line, accepts w line) -> Forall (accepts w) lines.
Proof. intros H. induction lines; constructor; auto. Qed.

(** A loop over a concatenation is the two loops in sequence. *)
Lemma for_each_app {A} (xs ys : list A) body log :
  for_each (xs ++ ys) body log
  = (for_each xs body ;; for_each ys body) log.
Proof.
  revert log. induction xs as [| x xs IH]; intros log; simpl.
  - reflexivity.
  - unfold bind in *. destruct (body x log) as [[[] | e] log1].
    + apply IH.
    + reflexivity.
Qed.

Lemma stdout_app l1 l2 : stdout (l1 ++ l2) = stdout l1 ++ stdout l2.
Proof.
  induction l1 as [| [] l1 IH]; simpl; rewrite ?IH; reflexivity.
Qed.


Lemma probes_app l1 l2 : probes (l1 ++ l2) = probes l1 ++ probes l2.
Proof.
  induction l1 as [| [] l1 IH]; simpl; rewrite ?IH; reflexivity.
Qed.

Lemma filter_probes (f : event -> bool) log :
  (forall line, f (EvPrint line) = false) ->
  List.filter f (probes log) = List.filter f log.
Proof.
  intros Hf. induction log as [| [] log IH]; simpl; rewrite ?Hf, ?IH;
    reflexivity.
Qed.

(** The lines a loop writes are at most [n] per turn when its body writes
    at most [n], however the loop ends. *)
Lemma for_each_bound {A} (body : A -> Script unit) (n : nat) (xs : list A) :
  (forall x log r log',
     body x log = (r, log') ->
     length (stdout log') <= length (stdout log) + n) ->
  forall log r log',
    for_each xs body log = (r, log') ->
    length (stdout log') <= length (stdout log) + n * length xs.
Proof.
  intros Hbody. induction xs as [| x xs IH]; intros log r log' E; simpl in E.
  - injection E as _ <-. lia.
  - unfold bind in E. destruct (body x log) as [[[] | e] log1] eqn:Ex.
    + specialize (Hbody _ _ _ _ Ex). specialize (IH _ _ _ E).
      simpl length. lia.
    + specialize (Hbody _ _ _ _ Ex). injection E as _ <-. simpl length. lia.
Qed.

Lemma print_bound w line log r log' :
  print w line log = (r, log') ->
  length (stdout log') <= length (stdout log) + 1.
Proof.
  unfold print, emit. destruct (stdout_write w line); intros [= _ <-].
  - rewrite stdout_app, length_app. simpl. lia.
  - lia.
Qed.

Lemma find_first {A} (f : A -> bool) (l : list A) (x : A) :
  List.find f l = Some x ->
  exists pre post,
    l = pre ++ x :: post /\ f x = true /\ forall y, In y pre -> f y = false.
Proof.
  induction l as [| a l IH]; simpl; [discriminate |].
  destruct (f a) eqn:Ea.
  - intros [= ->]. exists [], l. repeat split; [exact Ea | intros y []].
  - intros Hx. destruct (IH Hx) as (pre & post & -> & Hfx & Hpre).
    exists (a :: pre), post. repeat split; [exact Hfx |].
    intros y [<- | Hy]; [exact Ea | apply Hpre, Hy].
Qed.

Lemma find_absent {A} (f : A -> bool) (l : list A) :
  List.find f l = None <-> forall y, In y l -> f y = false.
Proof.
  induction l as [| a l IH]; simpl.
  - split; [intros _ y [] | reflexivity].
  - destruct (f a) eqn:Ea.
    + split; [discriminate |]. intros H. specialize (H a (or_introl eq_refl)).
      congruence.
    + rewrite IH. split.
      * intros H y [<- | Hy]; [exact Ea | apply H, Hy].
      * intros H y Hy. apply H. right. exact Hy.
Qed.

Lemma append_inj_l (s a b : string) : s +:+ a = s +:+ b -> a = b.
Proof.
  induction s as [| c s IH]; simpl; [auto |]. intros [= H]. apply IH, H.
Qed.

Lemma found_line_inj name p q :
  Msg.found_line name p = Msg.found_line name q -> p = q.
Proof.
  unfold Msg.found_line. intros H.
  apply append_inj_l in H. apply append_inj_l in H.
  apply append_inj_l in H. exact H.
Qed.

Lemma found_not_not_found name p name' :
  Msg.found_line name p <> Msg.not_found_line name'.
Proof. unfold Msg.found_line, Msg.not_found_line. simpl. discriminate. Qed.

(** ** Step 2: the known installation paths *)

Section KnownPaths.
Context (w : World).





(** The inner loop of step 2: its flag, its line and its checks. *)
Lemma first_existing_run name ps log :
  (forall p, List.find (path_exists w) ps = Some p ->
             accepts w (Msg.found_line name p)) ->
  exists log',
    first_existing w name ps log
    = (Returns (match List.find (path_exists w) ps with
                | Some _ => true
                | None => false
                end), log')
    /\ stdout log'
       = stdout log
         ++ match List.find (path_exists w) ps with
            | Some p => [Msg.found_line name p]
            | None => []
            end
    /\ probes log' = probes log ++ map EvExists (checked w ps).
Proof.
  revert log. induction ps as [| p ps IH]; intros log Hacc; simpl in *.
  - exists log. rewrite !app_nil_r. auto.
  - unfold bind at 1. unfold os_path_exists at 1.
    destruct (path_exists w p) eqn:Ep; cbn beta iota.
    + unfold bind. rewrite (print_accepted w _ _ (Hacc p eq_refl)). unfold ret.
      eexists. split; [reflexivity |].
      rewrite !stdout_app, !probes_app. simpl.
      rewrite !app_nil_r. auto.
    + destruct (IH (log ++ [EvExists p]) Hacc) as (log' & -> & Hout & Hpr).
      exists log'. split; [reflexivity |].
      rewrite Hout, Hpr, stdout_app, probes_app. simpl.
      rewrite app_nil_r, <- app_assoc. auto.
Qed.

Lemma scan_browser_run item log :
  accepts w (report_line w item) ->
  exists log',
    scan_browser w item log = (Returns tt, log')
    /\ stdout log' = stdout log ++ [report_line w item]
    /\ probes log' = probes log ++ map EvExists (checked w (snd item)).
Proof.
  destruct item as [name ps]. unfold scan_browser, report_line. simpl fst.
  simpl snd. intros Hacc.
  destruct (first_existing_run name ps log) as (log1 & E & Hout & Hpr).
  { intros p Hp. rewrite Hp in Hacc. exact Hacc. }
  rewrite (bind_returns _ _ _ _ _ E).
  destruct (List.find (path_exists w) ps) as [p |]; simpl.
  - exists log1. auto.
  - rewrite (print_accepted w (Msg.not_found_line name) _ Hacc).
    eexists. split; [reflexivity |].
    rewrite stdout_app, probes_app, Hout, Hpr. simpl.
    rewrite !app_nil_r. auto.
Qed.

Lemma known_path_scan_run t log :
  Forall (accepts w) (map (report_line w) t) ->
  exists log',
    known_path_scan w t log = (Returns tt, log')
    /\ stdout log' = stdout log ++ map (report_line w) t
    /\ probes log'
       = probes log
         ++ flat_map (fun item => map EvExists (checked w (snd item))) t.
Proof.
  revert log. induction t as [| item t IH]; intros log Hacc.
  - exists log. simpl. rewrite !app_nil_r. auto.
  - simpl in Hacc.
    destruct (scan_browser_run item log (Forall_inv Hacc))
      as (log1 & E1 & Hout1 & Hpr1).
    destruct (IH log1 (Forall_inv_tail Hacc)) as (log' & E & Hout & Hpr).
    exists log'. split.
    + unfold known_path_scan in *. simpl for_each.
      rewrite (bind_returns _ _ _ _ _ E1). exact E.
    + rewrite Hout, Hpr, Hout1, Hpr1. simpl. rewrite <- !app_assoc. auto.
Qed.

Lemma checked_prefix ps : exists rest, ps = checked w ps ++ rest.
Proof.
  induction ps as [| p ps [rest IH]]; simpl.
  - exists []. reflexivity.
  - destruct (path_exists w p).
    + exists ps. reflexivity.
    + exists rest. simpl. rewrite <- IH. reflexivity.
Qed.


End KnownPaths.

(** ** Step 3: the directories of PATH *)

Section PathScan.
Context (w : World).

(** The matches and the checks of one directory, in the order of [exes]. *)
Lemma scan_exes_run d exes log :
  Forall (accepts w)
    (map Msg.path_match_line
       (List.filter (path_exists w) (map (path_join w d) exes))) ->
  exists log',
    for_each exes (scan_exe w d) log = (Returns tt, log')
    /\ stdout log'
       = stdout log
         ++ map Msg.path_match_line
              (List.filter (path_exists w) (map (path_join w d) exes))
    /\ probes log'
       = probes log ++ map (fun exe => EvExists (path_join w d exe)) exes.
Proof.
  revert log. induction exes as [| exe exes IH]; intros log Hacc; simpl in *.
  - exists log. rewrite !app_nil_r. auto.
  - unfold bind at 1. unfold scan_exe at 1. unfold bind at 1.
    unfold os_path_exists at 1.
    destruct (path_exists w (path_join w d exe)) eqn:E; cbn beta iota.
    + simpl in Hacc. rewrite (print_accepted w _ _ (Forall_inv Hacc)).
      destruct (IH ((log ++ [EvExists (path_join w d exe)])
                    ++ [EvPrint (Msg.path_match_line (path_join w d exe))])
                  (Forall_inv_tail Hacc))
        as (log' & -> & Hout & Hpr).
      exists log'. split; [reflexivity |].
      rewrite Hout, Hpr, !stdout_app, !probes_app. simpl.
      rewrite !app_nil_r, <- !app_assoc. auto.
    + unfold ret.
      destruct (IH (log ++ [EvExists (path_join w d exe)]) Hacc)
        as (log' & -> & Hout & Hpr).
      exists log'. split; [reflexivity |].
      rewrite Hout, Hpr, stdout_app, probes_app. simpl.
      rewrite app_nil_r, <- app_assoc. auto.
Qed.

(** The same matches, read off the pairs of the entry and a file name. *)
Lemma occurrences_cons d ds :
  map (occurrence_line w) (occurrences w (d :: ds))
  = (if path_isdir w d
     then map Msg.path_match_line
            (List.filter (path_exists w) (map (path_join w d) browser_exes))
     else [])
    ++ map (occurrence_line w) (occurrences w ds).
Proof.
  unfold occurrences. generalize browser_exes as exes. intros exes.
  cbn [list_prod]. rewrite List.filter_app, map_app. f_equal.
  induction exes as [| exe exes IH]; simpl.
  - destruct (path_isdir w d); reflexivity.
  - unfold is_occurrence at 1. simpl fst. simpl snd.
    destruct (path_isdir w d) eqn:Ed; simpl.
    + destruct (path_exists w (path_join w d exe)); simpl;
        rewrite IH; reflexivity.
    + exact IH.
Qed.

Lemma occurrences_app ds1 ds2 :
  occurrences w (ds1 ++ ds2) = occurrences w ds1 ++ occurrences w ds2.
Proof.
  unfold occurrences. generalize browser_exes as exes. intros exes.
  induction ds1 as [| d ds1 IH]; cbn [list_prod app].
  - reflexivity.
  - rewrite !List.filter_app, IH, app_assoc. reflexivity.
Qed.

Lemma occurrences_skip d ds :
  path_isdir w d = false -> occurrences w (d :: ds) = occurrences w ds.
Proof.
  intros Hd. unfold occurrences. generalize browser_exes as exes. intros exes.
  cbn [list_prod]. rewrite List.filter_app.
  replace (List.filter (is_occurrence w) (map (fun y => (d, y)) exes))
    with (@nil (string * string)); [reflexivity |].
  induction exes as [| exe exes IH]; simpl; [reflexivity |].
  unfold is_occurrence at 1. simpl. rewrite Hd. exact IH.
Qed.

Lemma occurrence_in_entry d exe :
  In exe browser_exes ->
  is_occurrence w (d, exe) = true ->
  exists a b,
    map (occurrence_line w) (occurrences w [d])
    = a ++ occurrence_line w (d, exe) :: b.
Proof.
  intros Hexe Hocc. apply in_split, in_map.
  unfold occurrences. apply List.filter_In. split; [| exact Hocc].
  apply in_prod; [left; reflexivity | exact Hexe].
Qed.

(** The loop over the entries: one line per occurrence, and its checks. *)
Lemma scan_dirs_run ds log :
  Forall (accepts w) (map (occurrence_line w) (occurrences w ds)) ->
  exists log',
    scan_dirs w ds log = (Returns tt, log')
    /\ stdout log' = stdout log ++ map (occurrence_line w) (occurrences w ds)
    /\ probes log' = probes log ++ flat_map (dir_probes w) ds.
Proof.
  revert log. induction ds as [| d ds IH]; intros log Hacc.
  - exists log. simpl. rewrite !app_nil_r. auto.
  - rewrite occurrences_cons in *.
    destruct (proj1 (List.Forall_app _ _ _) Hacc) as [Hd Hds].
    unfold scan_dirs in *. simpl for_each. cbn [flat_map].
    unfold dir_probes at 1.
    unfold bind at 1. unfold scan_dir at 1. unfold bind at 1.
    unfold os_path_isdir at 1.
    destruct (path_isdir w d) eqn:Ed; cbn beta iota.
    + destruct (scan_exes_run d browser_exes (log ++ [EvIsdir d]) Hd)
        as (log1 & -> & Hout1 & Hpr1).
      destruct (IH log1 Hds) as (log' & -> & Hout & Hpr).
      exists log'. split; [reflexivity |].
      rewrite Hout, Hpr, Hout1, Hpr1, stdout_app, probes_app. simpl.
      rewrite app_nil_r, <- !app_assoc. auto.
    + unfold ret. destruct (IH (log ++ [EvIsdir d]) Hds)
        as (log' & -> & Hout & Hpr).
      exists log'. split; [reflexivity |].
      rewrite Hout, Hpr, stdout_app, probes_app. simpl.
      rewrite app_nil_r, <- app_assoc. auto.
Qed.

(** An entry that is no directory costs one [isdir] and nothing else. *)
Lemma scan_dir_skip d log :
  path_isdir w d = false -> scan_dir w d log = (Returns tt, log ++ [EvIsdir d]).
Proof.
  intros Hd. unfold scan_dir, bind, os_path_isdir. rewrite Hd. reflexivity.
Qed.

Lemma scan_dirs_at ds1 d ds2 log :
  Forall (accepts w) (map (occurrence_line w) (occurrences w ds1)) ->
  exists log1,
    scan_dirs w ds1 log = (Returns tt, log1) /\
    scan_dirs w (ds1 ++ d :: ds2) log
    = (scan_dir w d ;; scan_dirs w ds2) log1.
Proof.
  intros Hacc. destruct (scan_dirs_run ds1 log Hacc) as (log1 & E1 & _).
  exists log1. split; [exact E1 |].
  unfold scan_dirs in *. rewrite for_each_app.
  rewrite (bind_returns _ _ _ _ _ E1). reflexivity.
Qed.

Lemma path_env_scan_run log :
  accepts w Msg.hdr_env ->
  Forall (accepts w) (map (occurrence_line w) (occurrences w (paths w))) ->
  exists log',
    path_env_scan w log = (Returns tt, log')
    /\ stdout log'
       = stdout log
         ++ Msg.hdr_env :: map (occurrence_line w) (occurrences w (paths w))
    /\ probes log' = probes log ++ flat_map (dir_probes w) (paths w).
Proof.
  intros Hh Hacc. unfold path_env_scan.
  rewrite (bind_returns _ _ _ _ _ (print_accepted w _ log Hh)).
  destruct (scan_dirs_run (paths w) (log ++ [EvPrint Msg.hdr_env]) Hacc)
    as (log' & E & Hout & Hpr).
  exists log'. split; [exact E |].
  rewrite Hout, Hpr, stdout_app, probes_app. simpl.
  rewrite app_nil_r, <- app_assoc. auto.
Qed.

(** However the scan ends, it has written at most its header and five
    lines per entry. *)
Lemma scan_exe_bound d exe log r log' :
  scan_exe w d exe log = (r, log') ->
  length (stdout log') <= length (stdout log) + 1.
Proof.
  unfold scan_exe, bind, os_path_exists.
  destruct (path_exists w (path_join w d exe)).
  - intros E. apply print_bound in E.
    rewrite stdout_app in E. simpl in E. rewrite app_nil_r in E. exact E.
  - intros [= _ <-]. rewrite stdout_app. simpl. rewrite app_nil_r. lia.
Qed.

Lemma scan_dir_bound d log r log' :
  scan_dir w d log = (r, log') ->
  length (stdout log') <= length (stdout log) + 5.
Proof.
  unfold scan_dir, bind, os_path_isdir. destruct (path_isdir w d).
  - intros E.
    apply (for_each_bound (scan_exe w d) 1 browser_exes (scan_exe_bound d))
      in E.
    rewrite stdout_app in E. simpl in E. rewrite app_nil_r in E. exact E.
  - intros [= _ <-]. rewrite stdout_app. simpl. rewrite app_nil_r. lia.
Qed.

Lemma path_env_scan_bound log r log' :
  path_env_scan w log = (r, log') ->
  length (stdout log') <= length (stdout log) + 1 + 5 * length (paths w).
Proof.
  unfold path_env_scan, bind.
  destruct (print w Msg.hdr_env log) as [[[] | e] log1] eqn:Ep.
  - intros E. apply print_bound in Ep.
    apply (for_each_bound (scan_dir w) 5 (paths w) scan_dir_bound) in E. lia.
  - intros [= _ <-]. apply print_bound in Ep. lia.
Qed.

End PathScan.

(** ** Steps 1 and 4: the browser services *)

Section Services.
Context (w : World).

(** The launch probe prints its header, calls the launcher once and prints
    one line: the confirmation, or the text of the error. *)
Lemma launch_probe_log log :
  accepts w Msg.hdr_launch ->
  accepts w (launch_line w) ->
  launch_probe w log
  = (Returns tt,
     log ++ [EvPrint Msg.hdr_launch; EvOpen Msg.url; EvPrint (launch_line w)]).
Proof.
  intros Hh Hl. unfold launch_probe.
  rewrite (bind_returns _ _ _ _ _ (print_accepted w _ log Hh)).
  unfold try_except, bind, webbrowser_open. unfold launch_line in *.
  destruct (open_outcome w Msg.url) as [b | e].
  - rewrite (print_accepted w Msg.launched _ Hl), <- !app_assoc.
    reflexivity.
  - rewrite (print_accepted w (Msg.launch_error e) _ Hl), <- !app_assoc.
    reflexivity.
Qed.

Lemma controller_query_log log :
  accepts w Msg.hdr_controller ->
  accepts w (controller_report w) ->
  controller_query w log
  = (Returns tt,
     log ++ [EvPrint Msg.hdr_controller; EvGet;
             EvPrint (controller_report w)]).
Proof.
  intros Hh Hl. unfold controller_query.
  rewrite (bind_returns _ _ _ _ _ (print_accepted w _ log Hh)).
  unfold try_except, bind, webbrowser_get. unfold controller_report in *.
  destruct (get_outcome w) as [b | e].
  - rewrite (print_accepted w (Msg.controller_line b) _ Hl), <- !app_assoc.
    reflexivity.
  - rewrite (print_accepted w (Msg.controller_error e) _ Hl), <- !app_assoc.
    reflexivity.
Qed.

(** The module is its four steps one after the other, each from the log
    the one before left. *)
Lemma script_compose t log l1 l2 l3 l4 :
  accepts w Msg.title ->
  accepts w Msg.hdr_known ->
  launch_probe w (log ++ [EvPrint Msg.title]) = (Returns tt, l1) ->
  known_path_scan w t (l1 ++ [EvPrint Msg.hdr_known]) = (Returns tt, l2) ->
  path_env_scan w l2 = (Returns tt, l3) ->
  controller_query w l3 = (Returns tt, l4) ->
  script w t log = (Returns tt, l4).
Proof.
  intros Ht Hk E1 E2 E3 E4. unfold script.
  rewrite (bind_returns _ _ _ _ _ (print_accepted w _ log Ht)).
  rewrite (bind_returns _ _ _ _ _ E1).
  rewrite (bind_returns _ _ _ _ _ (print_accepted w _ l1 Hk)).
  rewrite (bind_returns _ _ _ _ _ E2).
  rewrite (bind_returns _ _ _ _ _ E3).
  exact E4.
Qed.

(** When standard output takes the lines of the report, each of the four
    steps returns and the run writes the report and makes its checks. *)
Lemma script_run t log :
  Forall (accepts w) (report w t) ->
  exists l1 l2 l3 l4,
    launch_probe w (log ++ [EvPrint Msg.title]) = (Returns tt, l1) /\
    known_path_scan w t (l1 ++ [EvPrint Msg.hdr_known]) = (Returns tt, l2) /\
    path_env_scan w l2 = (Returns tt, l3) /\
    controller_query w l3 = (Returns tt, l4) /\
    script w t log = (Returns tt, l4) /\
    stdout l4 = stdout log ++ report w t /\
    probes l4
    = probes log
      ++ EvOpen Msg.url
         :: flat_map (fun item => map EvExists (checked w (snd item))) t
         ++ flat_map (dir_probes w) (paths w)
         ++ [EvGet].
Proof.
  unfold report. intros Hacc.
  destruct (proj1 (List.Forall_app _ _ _) Hacc) as [Hhead Hacc1].
  pose proof (Forall_inv Hhead) as Htitle.
  pose proof (Forall_inv (Forall_inv_tail Hhead)) as Hhl.
  pose proof (Forall_inv (Forall_inv_tail (Forall_inv_tail Hhead))) as Hll.
  pose proof (Forall_inv Hacc1) as Hhk.
  destruct (proj1 (List.Forall_app _ _ _) (Forall_inv_tail Hacc1))
    as [Hknown Hacc2].
  pose proof (Forall_inv Hacc2) as Hhe.
  destruct (proj1 (List.Forall_app _ _ _) (Forall_inv_tail Hacc2))
    as [Hocc Htail].
  pose proof (Forall_inv Htail) as Hhc.
  pose proof (Forall_inv (Forall_inv_tail Htail)) as Hcl.
  pose proof (launch_probe_log (log ++ [EvPrint Msg.title]) Hhl Hll) as E1.
  set (l1 := _ ++ [_; _; _]) in E1.
  destruct (known_path_scan_run w t (l1 ++ [EvPrint Msg.hdr_known]) Hknown)
    as (l2 & E2 & Hout2 & Hpr2).
  destruct (path_env_scan_run w l2 Hhe Hocc) as (l3 & E3 & Hout3 & Hpr3).
  pose proof (controller_query_log l3 Hhc Hcl) as E4.
  set (l4 := _ ++ [_; _; _]) in E4.
  exists l1, l2, l3, l4.
  split; [exact E1 |]. split; [exact E2 |]. split; [exact E3 |].
  split; [exact E4 |].
  split; [exact (script_compose t log l1 l2 l3 l4 Htitle Hhk E1 E2 E3 E4) |].
  split.
  - subst l4. rewrite stdout_app, Hout3, Hout2, stdout_app. subst l1.
    rewrite !stdout_app. simpl. rewrite <- ?app_assoc. simpl.
    rewrite <- ?app_assoc. reflexivity.
  - subst l4. rewrite probes_app, Hpr3, Hpr2, probes_app. subst l1.
    rewrite !probes_app. simpl. rewrite <- ?app_assoc. simpl.
    rewrite <- ?app_assoc. reflexivity.
Qed.

End Services.

Lemma filter_service_exists ps :
  List.filter is_service (map EvExists ps) = [].
Proof. induction ps; simpl; auto. Qed.

Lemma filter_service_checked w (t : table) :
  List.filter is_service
    (flat_map (fun item => map EvExists (checked w (snd item))) t) = [].
Proof.
  induction t as [| item t IH]; simpl; [reflexivity |].
  rewrite List.filter_app, filter_service_exists, IH. reflexivity.
Qed.

Lemma filter_service_dir_probes w ds :
  List.filter is_service (flat_map (dir_probes w) ds) = [].
Proof.
  induction ds as [| d ds IH]; simpl; [reflexivity |].
  rewrite List.filter_app, IH, app_nil_r.
  destruct (path_isdir w d); [| reflexivity].
  induction browser_exes; simpl; auto.
Qed.

Lemma filter_isdir_dir_probes w ds :
  List.filter is_isdir (flat_map (dir_probes w) ds) = map EvIsdir ds.
Proof.
  induction ds as [| d ds IH]; simpl; [reflexivity |].
  rewrite List.filter_app, IH. f_equal.
  destruct (path_isdir w d); [| reflexivity].
  induction browser_exes; simpl; auto.
Qed.

(** ** Splitting a path list *)

Lemma split_nonempty s sep : split s sep <> [].
Proof.
  destruct s as [| c s]; simpl; [discriminate |].
  destruct (Ascii.eqb c sep); [discriminate |].
  destruct (split s sep); discriminate.
Qed.

Lemma join_cons sep p q rest :
  join sep (p :: q :: rest) = p +:+ String sep (join sep (q :: rest)).
Proof. reflexivity. Qed.

(** Joining the pieces with the separator gives the string back. *)
Lemma join_split s sep : join sep (split s sep) = s.
Proof.
  induction s as [| c s IH]; simpl; [reflexivity |].
  pose proof (split_nonempty s sep) as Hn.
  destruct (Ascii.eqb_spec c sep) as [-> | Hne];
    destruct (split s sep) as [| p ps]; try contradiction.
  - rewrite join_cons, IH. reflexivity.
  - destruct ps as [| q ps].
    + simpl in *. rewrite IH. reflexivity.
    + rewrite join_cons in *. rewrite <- IH. reflexivity.
Qed.

(** No piece holds the separator. *)
Lemma split_sep_free s sep :
  Forall (fun piece => contains sep piece = false) (split s sep).
Proof.
  induction s as [| c s IH]; simpl.
  - constructor; [reflexivity | constructor].
  - destruct (Ascii.eqb c sep) eqn:E.
    + constructor; [reflexivity | exact IH].
    + destruct (split s sep) as [| p ps].
      * constructor; [simpl; rewrite E; reflexivity | constructor].
      * inversion IH as [| ? ? Hp Hps]; subst.
        constructor; [simpl; rewrite E; exact Hp | exact Hps].
Qed.

(** The pieces are the only such list: splitting undoes joining. *)
Lemma split_piece p sep rest :
  contains sep p = false ->
  split (p +:+ String sep rest) sep = p :: split rest sep.
Proof.
  induction p as [| c p IH]; simpl; intros Hp.
  - rewrite Ascii.eqb_refl. reflexivity.
  - apply orb_false_iff in Hp as [Hc Hp]. rewrite Hc, (IH Hp). reflexivity.
Qed.

Lemma split_sep_free_piece p sep :
  contains sep p = false -> split p sep = [p].
Proof.
  induction p as [| c p IH]; simpl; intros Hp; [reflexivity |].
  apply orb_false_iff in Hp as [Hc Hp]. rewrite Hc, (IH Hp). reflexivity.
Qed.

Lemma split_join sep pieces :
  pieces <> [] ->
  Forall (fun piece => contains sep piece = false) pieces ->
  split (join sep pieces) sep = pieces.
Proof.
  induction pieces as [| p ps IH]; intros Hne Hfree; [contradiction |].
  inversion Hfree as [| ? ? Hp Hps]; subst.
  destruct ps as [| q ps].
  - apply split_sep_free_piece, Hp.
  - rewrite join_cons, (split_piece _ _ _ Hp), IH;
      [reflexivity | discriminate | exact Hps].
Qed.

(** One entry more than there are separators. *)
Lemma split_length s sep : length (split s sep) = S (count_char sep s).
Proof.
  induction s as [| c s IH]; simpl; [reflexivity |].
  pose proof (split_nonempty s sep) as Hn.
  destruct (Ascii.eqb c sep); simpl; [rewrite IH; reflexivity |].
  destruct (split s sep) as [| p ps]; [contradiction | exact IH].
Qed.

(** Splitting two values joined by the separator. *)
Lemma split_app a b sep :
  split (a +:+ String sep b) sep = split a sep ++ split b sep.
Proof.
  induction a as [| c a IH]; simpl.
  - rewrite Ascii.eqb_refl. reflexivity.
  - rewrite IH. pose proof (split_nonempty a sep) as Hn.
    destruct (Ascii.eqb c sep); [reflexivity |].
    destruct (split a sep) as [| p ps]; [contradiction | reflexivity].
Qed.

(** ** Runs in the same surroundings *)

Lemma bind_ext {A B} (m1 m2 : Script A) (k1 k2 : A -> Script B) :
  (forall log, m1 log = m2 log) ->
  (forall a log, k1 a log = k2 a log) ->
  forall log, bind m1 k1 log = bind m2 k2 log.
Proof.
  intros Hm Hk log. unfold bind. rewrite Hm.
  destruct (m2 log) as [[a | e] log']; auto.
Qed.

Lemma try_except_ext {A} (b1 b2 : Script A) (h1 h2 : string -> Script A) :
  (forall log, b1 log = b2 log) ->
  (forall e log, h1 e log = h2 e log) ->
  forall log, try_except b1 h1 log = try_except b2 h2 log.
Proof.
  intros Hb Hh log. unfold try_except. rewrite Hb.
  destruct (b2 log) as [[a | e] log']; auto.
Qed.

Lemma for_each_ext {A} (xs : list A) (b1 b2 : A -> Script unit) :
  (forall x log, b1 x log = b2 x log) ->
  forall log, for_each xs b1 log = for_each xs b2 log.
Proof.
  intros Hb. induction xs as [| x xs IH]; intros log; simpl.
  - reflexivity.
  - apply bind_ext; auto.
Qed.

Section SameSurroundings.
Context (w1 w2 : World) (Hsame : same_surroundings w1 w2).

Lemma path_exists_same p : path_exists w1 p = path_exists w2 p.
Proof using Hsame. destruct p; simpl; [reflexivity | apply Hsame]. Qed.

Lemma path_isdir_same p : path_isdir w1 p = path_isdir w2 p.
Proof using Hsame. destruct p; simpl; [reflexivity | apply Hsame]. Qed.

Lemma print_same line log : print w1 line log = print w2 line log.
Proof using Hsame.
  unfold print. destruct Hsame as (_ & _ & _ & _ & _ & _ & _ & Hout).
  rewrite Hout. reflexivity.
Qed.

Lemma browsers_same : browsers w1 = browsers w2.
Proof using Hsame.
  unfold browsers. destruct Hsame as (_ & _ & _ & _ & He & _).
  rewrite He. reflexivity.
Qed.

Lemma paths_same : paths w1 = paths w2.
Proof using Hsame.
  unfold paths, env_path, environ_get. destruct Hsame as (He & _).
  rewrite He. reflexivity.
Qed.

Lemma launch_probe_same log : launch_probe w1 log = launch_probe w2 log.
Proof using Hsame.
  unfold launch_probe.
  apply bind_ext; [apply print_same | intros _ l].
  apply try_except_ext; [| intros e l'; apply print_same].
  intros l'. apply bind_ext; [| intros _ l''; apply print_same].
  intros l''. unfold webbrowser_open.
  destruct Hsame as (_ & _ & _ & _ & _ & Ho & _). rewrite Ho. reflexivity.
Qed.

Lemma controller_query_same log :
  controller_query w1 log = controller_query w2 log.
Proof using Hsame.
  unfold controller_query.
  apply bind_ext; [apply print_same | intros _ l].
  apply try_except_ext; [| intros e l'; apply print_same].
  intros l'. apply bind_ext; [| intros b l''; apply print_same].
  intros l''. unfold webbrowser_get.
  destruct Hsame as (_ & _ & _ & _ & _ & _ & Hg & _). rewrite Hg.
  reflexivity.
Qed.

Lemma first_existing_same name ps log :
  first_existing w1 name ps log = first_existing w2 name ps log.
Proof using Hsame.
  revert log. induction ps as [| p ps IH]; intros log; simpl.
  - reflexivity.
  - apply bind_ext.
    + intros l. unfold os_path_exists. rewrite path_exists_same. reflexivity.
    + intros [] l; [| apply IH].
      apply bind_ext; [apply print_same | reflexivity].
Qed.

Lemma known_path_scan_same t log :
  known_path_scan w1 t log = known_path_scan w2 t log.
Proof using Hsame.
  apply for_each_ext. intros [name ps] log'. unfold scan_browser.
  apply bind_ext; [apply first_existing_same |].
  intros [] l; simpl; [reflexivity | apply print_same].
Qed.

Lemma scan_dirs_same ds log : scan_dirs w1 ds log = scan_dirs w2 ds log.
Proof using Hsame.
  apply for_each_ext. intros d log'. unfold scan_dir.
  apply bind_ext.
  - intros l. unfold os_path_isdir. rewrite path_isdir_same. reflexivity.
  - intros [] l; [| reflexivity].
    apply for_each_ext. intros exe l'. unfold scan_exe.
    destruct Hsame as (_ & _ & _ & Hj & _). rewrite Hj.
    apply bind_ext.
    + intros l''. unfold os_path_exists. rewrite path_exists_same.
      reflexivity.
    + intros [] l''; [apply print_same | reflexivity].
Qed.

Lemma script_same t log : script w1 t log = script w2 t log.
Proof using Hsame.
  unfold script.
  apply bind_ext; [apply print_same | intros _ l1].
  apply bind_ext; [apply launch_probe_same | intros _ l2].
  apply bind_ext; [apply print_same | intros _ l3].
  apply bind_ext; [apply known_path_scan_same | intros _ l4].
  apply bind_ext; [| intros _ l5; apply controller_query_same].
  intros l5. unfold path_env_scan.
  apply bind_ext; [apply print_same | intros _ l6].
  rewrite paths_same. apply scan_dirs_same.
Qed.

End SameSurroundings.

Section SameFileSystem.
Context (w1 w2 : World) (Hsame : same_file_system w1 w2).

Lemma path_exists_same_fs p : path_exists w1 p = path_exists w2 p.
Proof using Hsame. destruct p; simpl; [reflexivity | apply Hsame]. Qed.

Lemma path_isdir_same_fs p : path_isdir w1 p = path_isdir w2 p.
Proof using Hsame. destruct p; simpl; [reflexivity | apply Hsame]. Qed.

Lemma report_line_same_fs item : report_line w1 item = report_line w2 item.
Proof using Hsame.
  unfold report_line.
  replace (List.find (path_exists w1) (snd item))
    with (List.find (path_exists w2) (snd item)); [reflexivity |].
  induction (snd item) as [| p ps IH]; simpl; [reflexivity |].
  rewrite path_exists_same_fs, IH. reflexivity.
Qed.

Lemma occurrence_lines_same_fs ds :
  map (occurrence_line w1) (occurrences w1 ds)
  = map (occurrence_line w2) (occurrences w2 ds).
Proof using Hsame.
  assert (Hjoin : forall a b, path_join w1 a b = path_join w2 a b)
    by apply Hsame.
  assert (Hf : forall o, is_occurrence w1 o = is_occurrence w2 o).
  { intros o. unfold is_occurrence.
    rewrite path_isdir_same_fs, path_exists_same_fs, Hjoin. reflexivity. }
  assert (Hl : forall o, occurrence_line w1 o = occurrence_line w2 o).
  { intros o. unfold occurrence_line. rewrite Hjoin. reflexivity. }
  unfold occurrences.
  rewrite (List.filter_ext _ _ Hf), (map_ext _ _ Hl). reflexivity.
Qed.

Lemma paths_same_fs : paths w1 = paths w2.
Proof using Hsame.
  unfold paths, env_path, environ_get. destruct Hsame as (He & _).
  rewrite He. reflexivity.
Qed.

End SameFileSystem.

(** ** The claims *)



(** C2, as the code has it.  The entries step 3 searches are those of the
    PATH value split at the semicolon.  When standard output accepts the
    lines, step 3 returns, and after its header it prints exactly one line
    per occurrence: per entry that is a directory and file name of the
    fixed list that exists in it, in the order of the entries; the line is
    the mark, the fixed words and the joined path.  So when two entries are
    directories that both hold the same executable, chrome.exe for one,
    both lines are printed, that of the earlier entry first.  On a Windows
    host the entries are the PATH directories of the platform. *)
Theorem path_scan_reports_every_occurrence (w : World) (log : list event) :
  Forall (accepts w)
    (Msg.hdr_env :: map (occurrence_line w) (occurrences w (paths w))) ->
  exists log',
    path_env_scan w log = (Returns tt, log') /\
    stdout log'
    = stdout log
      ++ Msg.hdr_env :: map (occurrence_line w) (occurrences w (paths w)) /\
    (forall ds1 d1 ds2 d2 ds3 exe,
       paths w = ds1 ++ d1 :: ds2 ++ d2 :: ds3 ->
       In exe browser_exes ->
       is_occurrence w (d1, exe) = true ->
       is_occurrence w (d2, exe) = true ->
       exists la lb lc,
         stdout log'
         = la ++ ("✓ 在 PATH 中找到: " +:+ path_join w d1 exe)%string
              :: lb ++ ("✓ 在 PATH 中找到: " +:+ path_join w d2 exe)%string
              :: lc) /\
    (host w = Windows -> paths w = platform_paths w).
Proof.
  intros Hacc.
  destruct (path_env_scan_run w log (Forall_inv Hacc) (Forall_inv_tail Hacc))
    as (log' & E & Hstd & _).
  exists log'. split; [exact E |]. split; [exact Hstd |]. split.
  - intros ds1 d1 ds2 d2 ds3 exe Hpaths Hexe H1 H2.
    destruct (occurrence_in_entry w d1 exe Hexe H1) as (a1 & b1 & Ha).
    destruct (occurrence_in_entry w d2 exe Hexe H2) as (a2 & b2 & Hb).
    rewrite Hstd, Hpaths.
    change (d1 :: ds2 ++ d2 :: ds3) with ([d1] ++ ds2 ++ [d2] ++ ds3).
    rewrite !occurrences_app, !map_app, Ha, Hb.
    exists (stdout log ++ Msg.hdr_env
              :: map (occurrence_line w) (occurrences w ds1) ++ a1),
      (b1 ++ map (occurrence_line w) (occurrences w ds2) ++ a2),
      (b2 ++ map (occurrence_line w) (occurrences w ds3)).
    rewrite <- !app_assoc. simpl. rewrite <- !app_assoc. reflexivity.
  - unfold paths, platform_paths. intros ->. reflexivity.
Qed.

(** C6 (entries of PATH that are no directories).  An entry that does not
    exist or is not a directory is asked [isdir] once and then skipped:
    nothing is raised, nothing is printed, no file is looked up in it, and
    the scan goes on with the next entry; the report is the one of the
    same PATH without that entry.  What is said of the other entries takes
    a standard output that accepts their lines. *)
Theorem path_scan_skips_non_directory
  (w : World) (ds1 : list string) (d : string) (ds2 : list string)
  (log : list event) :
  path_isdir w d = false ->
  scan_dir w d log = (Returns tt, log ++ [EvIsdir d])
  /\ (Forall (accepts w) (map (occurrence_line w) (occurrences w ds1)) ->
      exists log1,
        scan_dirs w ds1 log = (Returns tt, log1) /\
        scan_dirs w (ds1 ++ d :: ds2) log
        = scan_dirs w ds2 (log1 ++ [EvIsdir d]))
  /\ (Forall (accepts w)
        (map (occurrence_line w) (occurrences w (ds1 ++ ds2))) ->
      exists log' log'',
        scan_dirs w (ds1 ++ d :: ds2) log = (Returns tt, log') /\
        scan_dirs w (ds1 ++ ds2) log = (Returns tt, log'') /\
        stdout log' = stdout log'').
Proof.
  intros Hd. split; [apply scan_dir_skip, Hd |]. split.
  - intros Hacc.
    destruct (scan_dirs_at w ds1 d ds2 log Hacc) as (log1 & E1 & E).
    exists log1. split; [exact E1 |]. rewrite E.
    rewrite (bind_returns _ _ _ _ _ (scan_dir_skip w d log1 Hd)).
    reflexivity.
  - intros Hacc.
    assert (Hocc : occurrences w (ds1 ++ d :: ds2) = occurrences w (ds1 ++ ds2)).
    { rewrite !occurrences_app, (occurrences_skip w d ds2 Hd). reflexivity. }
    destruct (scan_dirs_run w (ds1 ++ ds2) log Hacc) as (log'' & E'' & H'' & _).
    rewrite <- Hocc in Hacc.
    destruct (scan_dirs_run w (ds1 ++ d :: ds2) log Hacc)
      as (log' & E' & H' & _).
    exists log', log''. repeat split; try assumption.
    rewrite H', H'', Hocc. reflexivity.
Qed.

(** C3, as the code has it.  An error raised by the launcher in step 1, or
    by the resolver in step 4, is caught in that step, and the handler
    prints the fixed words followed by the text of the error: when standard
    output accepts that line, the step returns.  When standard output
    accepts the lines of the report, whatever the two services do, each of
    the four steps runs, from the log the one before left, and the module
    returns. *)
Theorem service_errors_are_caught (w : World) (t : table) (log : list event) :
  (forall e,
     open_outcome w Msg.url = Raises e ->
     accepts w Msg.hdr_launch ->
     accepts w ("打开浏览器时出错: " +:+ e)%string ->
     launch_probe w log
     = (Returns tt,
        log ++ [EvPrint Msg.hdr_launch; EvOpen Msg.url;
                EvPrint ("打开浏览器时出错: " +:+ e)%string]))
  /\ (forall e,
        get_outcome w = Raises e ->
        accepts w Msg.hdr_controller ->
        accepts w ("获取浏览器信息时出错: " +:+ e)%string ->
        controller_query w log
        = (Returns tt,
           log ++ [EvPrint Msg.hdr_controller; EvGet;
                   EvPrint ("获取浏览器信息时出错: " +:+ e)%string]))
  /\ (Forall (accepts w) (report w t) ->
      exists l1 l2 l3 l4,
        launch_probe w (log ++ [EvPrint Msg.title]) = (Returns tt, l1) /\
        known_path_scan w t (l1 ++ [EvPrint Msg.hdr_known]) = (Returns tt, l2) /\
        path_env_scan w l2 = (Returns tt, l3) /\
        controller_query w l3 = (Returns tt, l4) /\
        script w t log = (Returns tt, l4)).
Proof.
  split; [| split].
  - intros e He Hh Hl.
    assert (Hline : launch_line w = ("打开浏览器时出错: " +:+ e)%string).
    { unfold launch_line. rewrite He. reflexivity. }
    rewrite <- Hline in *. apply launch_probe_log; assumption.
  - intros e He Hh Hl.
    assert (Hline : controller_report w
                    = ("获取浏览器信息时出错: " +:+ e)%string).
    { unfold controller_report. rewrite He. reflexivity. }
    rewrite <- Hline in *. apply controller_query_log; assumption.
  - intros Hacc.
    destruct (script_run w t log Hacc)
      as (l1 & l2 & l3 & l4 & E1 & E2 & E3 & E4 & E & _).
    exists l1, l2, l3, l4. auto.
Qed.

(** C4, as the code has it.  For every file system, environment, launcher
    and resolver, and every candidate table: when standard output accepts
    the lines of the report, the module runs to its end without an
    uncaught exception, so the exit status is 0; so does the module with
    the table it is written with. *)
Theorem script_always_succeeds (w : World) (t : table) (log : list event) :
  Forall (accepts w) (report w t) ->
  (exists log', script w t log = (Returns tt, log'))
  /\ exit_status (fst (script w t log)) = 0
  /\ (Forall (accepts w) (report w (browsers w)) ->
      (exists log', check_browsers w log = (Returns tt, log'))
      /\ exit_status (fst (check_browsers w log)) = 0).
Proof.
  intros Hacc.
  destruct (script_run w t log Hacc) as (? & ? & ? & l4 & _ & _ & _ & _ & E & _).
  rewrite E. split; [eexists; reflexivity |]. split; [reflexivity |].
  intros Hacc'.
  destruct (script_run w (browsers w) log Hacc')
    as (? & ? & ? & l4' & _ & _ & _ & _ & E' & _).
  unfold check_browsers. rewrite E'. split; [eexists; reflexivity | reflexivity].
Qed.

(** C5, as the code has it.  Step 3 splits the value of PATH at the
    semicolon, whatever the host: the entries hold no semicolon, joined
    with semicolons they give the value back, and on a Windows host, where
    the semicolon is the path-list separator, they are the entries of
    the platform. *)
Theorem paths_split_on_semicolon (w : World) :
  paths w = split (env_path w) ";"
  /\ join ";" (paths w) = env_path w
  /\ Forall (fun piece => contains ";" piece = false) (paths w)
  /\ (forall pieces,
        pieces <> [] ->
        Forall (fun piece => contains ";" piece = false) pieces ->
        join ";" pieces = env_path w ->
        paths w = pieces)
  /\ (host w = Windows -> paths w = platform_paths w).
Proof.
  unfold paths, platform_paths. repeat split.
  - apply join_split.
  - apply split_sep_free.
  - intros pieces Hne Hfree <-. apply split_join; assumption.
  - intros ->. reflexivity.
Qed.


(** C9 (the arguments are not read).  Two runs in the same surroundings,
    with whatever argument vectors, do the same: the same log, so the same
    printed lines, and the same result, so the same exit status. *)
Theorem script_ignores_argv (w1 w2 : World) (t : table) (log : list event) :
  same_surroundings w1 w2 ->
  script w1 t log = script w2 t log
  /\ check_browsers w1 log = check_browsers w2 log
  /\ stdout (snd (check_browsers w1 log)) = stdout (snd (check_browsers w2 log))
  /\ exit_status (fst (check_browsers w1 log))
     = exit_status (fst (check_browsers w2 log)).
Proof.
  intros Hsame.
  assert (E : check_browsers w1 log = check_browsers w2 log).
  { unfold check_browsers. rewrite (browsers_same w1 w2 Hsame).
    apply script_same, Hsame. }
  split; [apply script_same, Hsame |]. rewrite E. auto.
Qed.

Lemma report_has_hdr_env w t : In Msg.hdr_env (report w t).
Proof.
  unfold report. apply in_or_app. right. right.
  apply in_or_app. right. left. reflexivity.
Qed.

(** C10 (PATH unset).  When the environment has no PATH, the value read is
    the empty string and its only entry the empty one, which is no
    directory: step 3 prints its header, asks [isdir] once, prints no
    match and returns; steps 1, 2 and 4 run as they do otherwise and the
    module returns.  What is said of the prints takes a standard output
    that accepts the lines. *)
Theorem unset_path_scans_nothing (w : World) (t : table) (log : list event) :
  environ w !! "PATH"%string = None ->
  env_path w = ""%string
  /\ paths w = [""%string]
  /\ (accepts w Msg.hdr_env ->
      path_env_scan w log
      = (Returns tt, log ++ [EvPrint Msg.hdr_env; EvIsdir ""]))
  /\ (Forall (accepts w) (report w t) ->
      exists l1 l2 l4,
        launch_probe w (log ++ [EvPrint Msg.title]) = (Returns tt, l1) /\
        known_path_scan w t (l1 ++ [EvPrint Msg.hdr_known]) = (Returns tt, l2) /\
        controller_query w (l2 ++ [EvPrint Msg.hdr_env; EvIsdir ""])
        = (Returns tt, l4) /\
        script w t log = (Returns tt, l4)).
Proof.
  intros Hunset.
  assert (Henv : env_path w = ""%string).
  { unfold env_path, environ_get. rewrite Hunset. reflexivity. }
  assert (Hpaths : paths w = [""%string]).
  { unfold paths. rewrite Henv. reflexivity. }
  assert (Hscan : forall l,
             accepts w Msg.hdr_env ->
             path_env_scan w l
             = (Returns tt, l ++ [EvPrint Msg.hdr_env; EvIsdir ""])).
  { intros l Hh. unfold path_env_scan. rewrite Hpaths.
    rewrite (bind_returns _ _ _ _ _ (print_accepted w _ l Hh)).
    unfold scan_dirs. simpl.
    unfold bind, os_path_isdir. simpl. rewrite <- app_assoc. reflexivity. }
  split; [exact Henv |]. split; [exact Hpaths |]. split; [apply Hscan |].
  intros Hacc.
  destruct (script_run w t log Hacc)
    as (l1 & l2 & l3 & l4 & E1 & E2 & E3 & E4 & E & _).
  rewrite Hscan in E3
    by exact (proj1 (List.Forall_forall _ _) Hacc _ (report_has_hdr_env w t)).
  injection E3 as <-.
  exists l1, l2, l4. auto.
Qed.

(** ** The whole report *)

(** X1 (one line per browser).  For every candidate table and file system,
    on a standard output that accepts the lines, step 2 returns and prints
    exactly one line per browser, in the order of the table: the found line
    of the first candidate that exists, or the not-found line. *)
Theorem known_path_scan_report (w : World) (t : table) (log : list event) :
  Forall (accepts w) (map (report_line w) t) ->
  exists log',
    known_path_scan w t log = (Returns tt, log')
    /\ stdout log' = stdout log ++ map (report_line w) t
    /\ length (stdout log') = length (stdout log) + length t.
Proof.
  intros Hacc.
  destruct (known_path_scan_run w t log Hacc) as (log' & E & Hout & _).
  exists log'. repeat split; [exact E | exact Hout |].
  rewrite Hout, length_app, length_map. reflexivity.
Qed.

(** X2 (what the line of a browser says).  The block of a browser prints
    one line, when standard output accepts it.  It is the not-found line
    exactly when no candidate exists; when it is the found line of a path,
    that path is a candidate that exists and no candidate before it does;
    and when some candidate exists, it is a found line. *)
Theorem scan_browser_line_meaning
  (w : World) (name : string) (ps : list string) (log : list event) :
  accepts w (report_line w (name, ps)) ->
  exists log' line,
    scan_browser w (name, ps) log = (Returns tt, log')
    /\ stdout log' = stdout log ++ [line]
    /\ (line = ("✗ " +:+ name +:+ ": 未找到")%string
        <-> forall p, In p ps -> path_exists w p = false)
    /\ (forall p,
          line = ("✓ " +:+ name +:+ ": " +:+ p)%string ->
          exists pre post,
            ps = pre ++ p :: post
            /\ path_exists w p = true
            /\ forall q, In q pre -> path_exists w q = false)
    /\ ((exists p, In p ps /\ path_exists w p = true) ->
        exists p, line = ("✓ " +:+ name +:+ ": " +:+ p)%string).
Proof.
  intros Hacc.
  destruct (scan_browser_run w (name, ps) log Hacc) as (log' & E & Hout & _).
  exists log', (report_line w (name, ps)).
  split; [exact E |]. split; [exact Hout |].
  unfold report_line. simpl fst. simpl snd.
  destruct (List.find (path_exists w) ps) as [p0 |] eqn:Hfind.
  - destruct (find_first _ _ _ Hfind) as (pre & post & Hps & Hp0 & Hpre).
    split; [| split].
    + split.
      * intros H. destruct (found_not_not_found name p0 name H).
      * intros H. rewrite (H p0) in Hp0; [discriminate |].
        rewrite Hps. apply in_or_app. right. left. reflexivity.
    + intros p Hp. pose proof (found_line_inj name p0 p Hp) as <-.
      exists pre, post. auto.
    + intros _. exists p0. reflexivity.
  - pose proof (proj1 (find_absent _ _) Hfind) as Habs.
    split; [| split].
    + split; auto.
    + intros p Hp. symmetry in Hp.
      destruct (found_not_not_found name p name Hp).
    + intros (p & Hin & Hp). rewrite (Habs p Hin) in Hp. discriminate.
Qed.

(** X3 (what step 2 looks at).  Step 2 makes no platform call but
    [os.path.exists], and only on candidates of the table: for each
    browser, in the order of the table, on its candidates in order up to
    the first that exists.  Standard output is taken to accept the lines
    of step 2. *)
Theorem known_path_scan_checks (w : World) (t : table) (log : list event) :
  Forall (accepts w) (map (report_line w) t) ->
  exists log',
    known_path_scan w t log = (Returns tt, log')
    /\ probes log'
       = probes log
         ++ flat_map (fun item => map EvExists (checked w (snd item))) t
    /\ Forall (fun item => exists rest, snd item = checked w (snd item) ++ rest)
         t.
Proof.
  intros Hacc.
  destruct (known_path_scan_run w t log Hacc) as (log' & E & _ & Hpr).
  exists log'. repeat split; [exact E | exact Hpr |].
  apply List.Forall_forall. intros item _. apply checked_prefix.
Qed.

(** X4 (what step 3 looks at).  On a standard output that accepts its
    lines, step 3 asks [os.path.isdir] of every entry of PATH, once and in
    order, the empty entries included; for an entry that is a directory it
    then asks [os.path.exists] of each of the five file names joined to it,
    without stopping at a match; it makes no other platform call. *)
Theorem path_scan_checks (w : World) (log : list event) :
  Forall (accepts w)
    (Msg.hdr_env :: map (occurrence_line w) (occurrences w (paths w))) ->
  exists log',
    path_env_scan w log = (Returns tt, log')
    /\ probes log' = probes log ++ flat_map (dir_probes w) (paths w)
    /\ List.filter is_isdir log'
       = List.filter is_isdir log ++ map EvIsdir (paths w).
Proof.
  intros Hacc.
  destruct (path_env_scan_run w log (Forall_inv Hacc) (Forall_inv_tail Hacc))
    as (log' & E & _ & Hpr).
  exists log'. repeat split; [exact E | exact Hpr |].
  rewrite <- (filter_probes is_isdir log'), Hpr by reflexivity.
  rewrite List.filter_app, filter_probes, filter_isdir_dir_probes
    by reflexivity.
  reflexivity.
Qed.

(** X5 (number of entries).  PATH has one entry more than it has
    semicolons, so at least one, and step 3, on a standard output that
    accepts its lines, asks [os.path.isdir] that many times. *)
Theorem path_entry_count (w : World) (log : list event) :
  length (paths w) = S (count_char ";" (env_path w))
  /\ (Forall (accepts w)
        (Msg.hdr_env :: map (occurrence_line w) (occurrences w (paths w))) ->
      exists log',
        path_env_scan w log = (Returns tt, log')
        /\ length (List.filter is_isdir log')
           = length (List.filter is_isdir log)
             + S (count_char ";" (env_path w))).
Proof.
  assert (Hlen : length (paths w) = S (count_char ";" (env_path w))).
  { unfold paths. apply split_length. }
  split; [exact Hlen |]. intros Hacc.
  destruct (path_env_scan_run w log (Forall_inv Hacc) (Forall_inv_tail Hacc))
    as (log' & E & _ & Hpr).
  exists log'. split; [exact E |].
  rewrite <- (filter_probes is_isdir log'), Hpr by reflexivity.
  rewrite List.filter_app, filter_probes, filter_isdir_dir_probes
    by reflexivity.
  rewrite length_app, length_map, Hlen. reflexivity.
Qed.

(** X6 (PATH values compose).  When the value of PATH is two values joined
    by a semicolon, its entries are the entries of the first followed by
    those of the second, and step 3, on a standard output that accepts its
    lines, prints the matches of the first followed by those of the
    second. *)
Theorem path_scan_composes (w : World) (a b : string) (log : list event) :
  env_path w = a +:+ String ";" b ->
  paths w = split a ";" ++ split b ";"
  /\ (Forall (accepts w)
        (Msg.hdr_env :: map (occurrence_line w) (occurrences w (paths w))) ->
      exists log',
        path_env_scan w log = (Returns tt, log')
        /\ stdout log'
           = stdout log
             ++ Msg.hdr_env
                :: map (occurrence_line w) (occurrences w (split a ";"))
                ++ map (occurrence_line w) (occurrences w (split b ";"))).
Proof.
  intros Henv.
  assert (Hpaths : paths w = split a ";" ++ split b ";").
  { unfold paths. rewrite Henv. apply split_app. }
  split; [exact Hpaths |]. intros Hacc.
  destruct (path_env_scan_run w log (Forall_inv Hacc) (Forall_inv_tail Hacc))
    as (log' & E & Hout & _).
  exists log'. split; [exact E |].
  rewrite Hout, Hpaths, occurrences_app, map_app. reflexivity.
Qed.

(** X7 (the whole report).  For every candidate table and surroundings
    whose standard output accepts the lines of the report, the module
    returns and prints, in this order: the title; the header of step 1 and
    one line, the confirmation when the launcher returned, whatever value
    it returned, or the fixed words followed by the text of its error; the
    header of step 2 and one line per browser; the header of step 3 and
    one line per occurrence; the header of step 4 and one line, the fixed
    words followed by the controller or by the text of the error of the
    resolver.  That is seven lines, one per browser and one per
    occurrence; the title and the four headers are the fixed texts of the
    script. *)
Theorem script_report (w : World) (t : table) (log : list event) :
  Forall (accepts w) (report w t) ->
  exists log',
    script w t log = (Returns tt, log')
    /\ stdout log'
       = stdout log
         ++ [Msg.title; Msg.hdr_launch; launch_line w]
         ++ Msg.hdr_known :: map (report_line w) t
         ++ Msg.hdr_env :: map (occurrence_line w) (occurrences w (paths w))
         ++ [Msg.hdr_controller; controller_report w]
    /\ length (stdout log')
       = length (stdout log) + 7 + length t
         + length (occurrences w (paths w))
    /\ (forall b, open_outcome w Msg.url = Returns b ->
                  launch_line w = "已尝试打开浏览器"%string)
    /\ (forall e, open_outcome w Msg.url = Raises e ->
                  launch_line w = ("打开浏览器时出错: " +:+ e)%string)
    /\ (forall d, get_outcome w = Returns d ->
                  controller_report w = ("默认浏览器控制器: " +:+ d)%string)
    /\ (forall e, get_outcome w = Raises e ->
                  controller_report w
                  = ("获取浏览器信息时出错: " +:+ e)%string)
    /\ [Msg.title; Msg.hdr_launch; Msg.hdr_known; Msg.hdr_env;
        Msg.hdr_controller]
       = [ "=== 浏览器检查 ===";
           String "010" "1. 尝试打开默认浏览器访问百度...";
           String "010" "2. 检查常见浏览器安装路径...";
           String "010" "3. 检查环境变量中的浏览器...";
           String "010" "4. 尝试使用 webbrowser 模块获取浏览器信息..." ]%string.
Proof.
  intros Hacc.
  destruct (script_run w t log Hacc)
    as (? & ? & ? & log' & _ & _ & _ & _ & E & Hout & _).
  exists log'. split; [exact E |]. split; [exact Hout |]. split.
  - rewrite Hout. unfold report.
    repeat (rewrite length_app || rewrite length_map || cbn [length]).
    lia.
  - unfold launch_line, controller_report.
    repeat split; intros val Hval; rewrite Hval; reflexivity.
Qed.

(** X8 (the platform calls of a run).  For every candidate table and
    surroundings whose standard output accepts the lines of the report,
    the platform calls of the module are, in this order: one call of the
    launcher, on the fixed address; the checks of step 2; the checks of
    step 3; one call of the resolver.  So each browser service is called
    exactly once, the launcher before any check of a path and the resolver
    after, also when the launcher raised. *)
Theorem script_platform_calls (w : World) (t : table) (log : list event) :
  Forall (accepts w) (report w t) ->
  exists log',
    script w t log = (Returns tt, log')
    /\ probes log'
       = probes log
         ++ EvOpen Msg.url
            :: flat_map (fun item => map EvExists (checked w (snd item))) t
            ++ flat_map (dir_probes w) (paths w)
            ++ [EvGet]
    /\ List.filter is_service log'
       = List.filter is_service log ++ [EvOpen Msg.url; EvGet].
Proof.
  intros Hacc.
  destruct (script_run w t log Hacc)
    as (? & ? & ? & log' & _ & _ & _ & _ & E & _ & Hpr).
  exists log'. split; [exact E |]. split; [exact Hpr |].
  rewrite <- (filter_probes is_service log'), Hpr by reflexivity.
  rewrite List.filter_app, filter_probes by reflexivity. f_equal.
  simpl. rewrite !List.filter_app, filter_service_checked,
    filter_service_dir_probes. reflexivity.
Qed.

(** X9 (the services change two lines).  Two runs over the same candidate
    table on hosts with the same environment and file system, each on a
    standard output that accepts the lines of its report, print the same
    lines for steps 2 and 3, headers included, whatever the launcher and
    the resolver do on either host: the reports differ at most in the line
    of step 1 and the line of step 4. *)
Theorem report_apart_from_services
  (w1 w2 : World) (t : table) (log : list event) :
  same_file_system w1 w2 ->
  Forall (accepts w1) (report w1 t) ->
  Forall (accepts w2) (report w2 t) ->
  exists middle log1 log2,
    script w1 t log = (Returns tt, log1)
    /\ script w2 t log = (Returns tt, log2)
    /\ stdout log1
       = stdout log
         ++ [Msg.title; Msg.hdr_launch; launch_line w1]
         ++ middle
         ++ [Msg.hdr_controller; controller_report w1]
    /\ stdout log2
       = stdout log
         ++ [Msg.title; Msg.hdr_launch; launch_line w2]
         ++ middle
         ++ [Msg.hdr_controller; controller_report w2].
Proof.
  intros Hsame Hacc1 Hacc2.
  destruct (script_run w1 t log Hacc1)
    as (? & ? & ? & log1 & _ & _ & _ & _ & E1 & H1 & _).
  destruct (script_run w2 t log Hacc2)
    as (? & ? & ? & log2 & _ & _ & _ & _ & E2 & H2 & _).
  exists (Msg.hdr_known :: map (report_line w2) t
          ++ Msg.hdr_env
             :: map (occurrence_line w2) (occurrences w2 (paths w2))),
    log1, log2.
  split; [exact E1 |]. split; [exact E2 |]. unfold report in *. split.
  - rewrite H1, (paths_same_fs w1 w2 Hsame),
      (occurrence_lines_same_fs w1 w2 Hsame).
    rewrite (map_ext _ _ (report_line_same_fs w1 w2 Hsame)).
    simpl. rewrite <- ?app_assoc. reflexivity.
  - rewrite H2. simpl. rewrite <- ?app_assoc. reflexivity.
Qed.

(** X10 (size of the PATH report).  However step 3 ends, it has printed at
    most its header and five lines per entry of PATH, one per file name of
    the fixed list; and on a standard output that accepts its lines it
    returns. *)
Theorem path_scan_line_bound (w : World) (log : list event) :
  (forall r log',
     path_env_scan w log = (r, log') ->
     length (stdout log')
     <= length (stdout log) + 1 + 5 * S (count_char ";" (env_path w)))
  /\ (Forall (accepts w)
        (Msg.hdr_env :: map (occurrence_line w) (occurrences w (paths w))) ->
      exists log', path_env_scan w log = (Returns tt, log')).
Proof.
  split.
  - intros r log' E. apply path_env_scan_bound in E.
    unfold paths in E. rewrite split_length in E. exact E.
  - intros Hacc.
    destruct (path_env_scan_run w log (Forall_inv Hacc) (Forall_inv_tail Hacc))
      as (log' & E & _).
    exists log'. exact E.
Qed.

(** ** The claims on the sample hosts *)

(** C2, as the spec has it, fails on the Linux host: [/usr/bin] is a
    directory of the colon-separated PATH and holds a [firefox.exe], yet
    the value holds no semicolon, stays one entry that is no directory, and
    step 3 prints its header and nothing else. *)
Lemma path_scan_misses_platform_directory :
  In "/usr/bin"%string (platform_paths Sample.linux_host)
  /\ path_isdir Sample.linux_host "/usr/bin" = true
  /\ In "firefox.exe"%string browser_exes
  /\ path_exists Sample.linux_host
       (path_join Sample.linux_host "/usr/bin" "firefox.exe") = true
  /\ (forall line, accepts Sample.linux_host line)
  /\ path_env_scan Sample.linux_host []
     = (Returns tt, [EvPrint Msg.hdr_env; EvIsdir "/usr/bin:/bin"]).
Proof.
  split; [left; reflexivity |]. split; [reflexivity |].
  split; [right; left; reflexivity |]. split; [reflexivity |].
  split; [intros line; reflexivity | reflexivity].
Qed.

(** C3, as the spec has it, fails on a host whose launcher raises an error
    with a text that standard output cannot write: the handler's own print
    raises, the error of step 1 leaves the step, steps 2 to 4 do not run
    and the exit status is 1. *)
Lemma launch_error_text_rejected :
  open_outcome Sample.odd_error_host Msg.url = Raises Sample.odd_error
  /\ launch_probe Sample.odd_error_host []
     = (Raises Sample.codec_error, [EvPrint Msg.hdr_launch; EvOpen Msg.url])
  /\ check_browsers Sample.odd_error_host []
     = (Raises Sample.codec_error,
        [EvPrint Msg.title; EvPrint Msg.hdr_launch; EvOpen Msg.url])
  /\ exit_status (fst (check_browsers Sample.odd_error_host [])) = 1.
Proof. repeat split. Qed.

(** C4, as the spec has it, fails on a host whose PATH names a directory
    that holds a [chrome.exe] and whose name standard output cannot write:
    both services succeed, the match of step 3 is found, its print raises
    outside any [try], step 4 does not run and the exit status is 1. *)
Lemma unprintable_match_ends_run :
  open_outcome Sample.odd_path_host Msg.url = Returns true
  /\ get_outcome Sample.odd_path_host
     = Returns "<webbrowser.BackgroundBrowser object>"%string
  /\ is_occurrence Sample.odd_path_host (Sample.odd_dir, "chrome.exe"%string)
     = true
  /\ fst (check_browsers Sample.odd_path_host []) = Raises Sample.codec_error
  /\ stdout (snd (check_browsers Sample.odd_path_host []))
     = [ Msg.title; Msg.hdr_launch; Msg.launched; Msg.hdr_known;
         Msg.not_found_line "Chrome"; Msg.not_found_line "Edge";
         Msg.not_found_line "Firefox"; Msg.not_found_line "Opera";
         Msg.hdr_env ]
  /\ exit_status (fst (check_browsers Sample.odd_path_host [])) = 1.
Proof. repeat split. Qed.

(** C5, as the spec has it, fails on a Linux host: the colon-separated
    PATH holds no semicolon and stays one entry, where the separator of
    the platform gives two. *)
Lemma paths_ignore_host_separator :
  paths Sample.linux_host = ["/usr/bin:/bin"%string]
  /\ platform_paths Sample.linux_host = ["/usr/bin"%string; "/bin"%string]
  /\ paths Sample.linux_host <> platform_paths Sample.linux_host.
Proof.
  split; [reflexivity |]. split; [reflexivity |].
  intros H. vm_compute in H. discriminate H.
Qed.



(** The PATH of the Windows host: both [chrome.exe] are reported. *)
Lemma path_scan_reports_every_occurrence_witness :
  (forall line, accepts (Sample.windows_host []) line)
  /\ paths (Sample.windows_host []) = ["C:\bin"; "D:\gone"; "C:\tools"]%string
  /\ exists log',
       path_env_scan (Sample.windows_host []) [] = (Returns tt, log')
       /\ stdout log'
          = [ Msg.hdr_env;
              "✓ 在 PATH 中找到: C:\bin\chrome.exe"%string;
              "✓ 在 PATH 中找到: C:\tools\chrome.exe"%string ]
       /\ exists la lb lc,
            stdout log'
            = la ++ "✓ 在 PATH 中找到: C:\bin\chrome.exe"%string
                 :: lb ++ "✓ 在 PATH 中找到: C:\tools\chrome.exe"%string :: lc.
Proof.
  assert (Hall : forall line, accepts (Sample.windows_host []) line).
  { intros line. reflexivity. }
  split; [exact Hall |]. split; [reflexivity |].
  destruct (path_scan_reports_every_occurrence (Sample.windows_host []) []
              (accepted_lines _ _ Hall))
    as (log' & E & Hout & Hboth & _).
  exists log'. split; [exact E |]. split; [exact Hout |].
  apply (Hboth [] "C:\bin" ["D:\gone"] "C:\tools" [] "chrome.exe")%string.
  - reflexivity.
  - left. reflexivity.
  - reflexivity.
  - reflexivity.
Defined.

(** The entry [D:\gone] of the PATH of the Windows host. *)
Lemma path_scan_skips_non_directory_witness :
  path_isdir (Sample.windows_host []) "D:\gone" = false
  /\ scan_dir (Sample.windows_host []) "D:\gone" []
     = (Returns tt, [EvIsdir "D:\gone"])
  /\ (exists log1,
        scan_dirs (Sample.windows_host []) ["C:\bin"%string] []
        = (Returns tt, log1)
        /\ scan_dirs (Sample.windows_host [])
             (paths (Sample.windows_host [])) []
           = scan_dirs (Sample.windows_host []) ["C:\tools"%string]
               (log1 ++ [EvIsdir "D:\gone"]))
  /\ (exists log' log'',
        scan_dirs (Sample.windows_host [])
          (paths (Sample.windows_host [])) []
        = (Returns tt, log')
        /\ scan_dirs (Sample.windows_host [])
             ["C:\bin"%string; "C:\tools"%string] []
           = (Returns tt, log'')
        /\ stdout log' = stdout log'').
Proof.
  assert (H : path_isdir (Sample.windows_host []) "D:\gone" = false).
  { reflexivity. }
  assert (Hall : forall line, accepts (Sample.windows_host []) line).
  { intros line. reflexivity. }
  destruct (path_scan_skips_non_directory (Sample.windows_host [])
              ["C:\bin"%string] "D:\gone" ["C:\tools"%string] [] H)
    as (Hskip & Hat & Hsame).
  split; [exact H |]. split; [exact Hskip |].
  split; [apply Hat | apply Hsame]; apply accepted_lines, Hall.
Defined.

(** Both services of the Windows host raise. *)
Lemma service_errors_are_caught_witness :
  open_outcome (Sample.windows_host []) Msg.url
  = Raises "no browser registered"
  /\ get_outcome (Sample.windows_host [])
     = Raises "could not locate runnable browser"
  /\ launch_probe (Sample.windows_host []) []
     = (Returns tt,
        [EvPrint Msg.hdr_launch; EvOpen Msg.url;
         EvPrint "打开浏览器时出错: no browser registered"])
  /\ controller_query (Sample.windows_host []) []
     = (Returns tt,
        [EvPrint Msg.hdr_controller; EvGet;
         EvPrint "获取浏览器信息时出错: could not locate runnable browser"])
  /\ exists log,
       script (Sample.windows_host []) (browsers (Sample.windows_host [])) []
       = (Returns tt, log).
Proof.
  assert (Hall : forall line, accepts (Sample.windows_host []) line).
  { intros line. reflexivity. }
  destruct (service_errors_are_caught (Sample.windows_host [])
              (browsers (Sample.windows_host [])) [])
    as (Hopen & Hget & Hrun).
  destruct (Hrun (accepted_lines _ _ Hall))
    as (l1 & l2 & l3 & l4 & _ & _ & _ & _ & E).
  split; [reflexivity |]. split; [reflexivity |].
  split; [apply (Hopen "no browser registered"%string); reflexivity |].
  split; [apply (Hget "could not locate runnable browser"%string);
          reflexivity |].
  exists l4. exact E.
Defined.

(** The Windows host: its standard output accepts every line. *)
Lemma script_always_succeeds_witness :
  Forall (accepts (Sample.windows_host []))
    (report (Sample.windows_host []) (browsers (Sample.windows_host [])))
  /\ exit_status (fst (check_browsers (Sample.windows_host []) [])) = 0.
Proof.
  assert (Hacc : Forall (accepts (Sample.windows_host []))
                   (report (Sample.windows_host [])
                      (browsers (Sample.windows_host [])))).
  { apply accepted_lines. intros line. reflexivity. }
  split; [exact Hacc |].
  destruct (script_always_succeeds (Sample.windows_host [])
              (browsers (Sample.windows_host [])) [] Hacc)
    as (_ & _ & Hmodule).
  apply Hmodule, Hacc.
Defined.

(** On the Windows host the entries are those of the platform. *)
Lemma paths_split_on_semicolon_witness :
  host (Sample.windows_host []) = Windows
  /\ paths (Sample.windows_host []) = ["C:\bin"; "D:\gone"; "C:\tools"]%string
  /\ paths (Sample.windows_host []) = platform_paths (Sample.windows_host []).
Proof.
  destruct (paths_split_on_semicolon (Sample.windows_host []))
    as (_ & _ & _ & _ & Hwin).
  split; [reflexivity |]. split; [reflexivity |].
  apply Hwin. reflexivity.
Defined.


(** Two runs on the Windows host with different arguments. *)
Lemma script_ignores_argv_witness :
  argv (Sample.windows_host ["check_browsers.py"; "--all"]%string)
  <> argv (Sample.windows_host [])
  /\ same_surroundings
       (Sample.windows_host ["check_browsers.py"; "--all"]%string)
       (Sample.windows_host [])
  /\ check_browsers
       (Sample.windows_host ["check_browsers.py"; "--all"]%string) []
     = check_browsers (Sample.windows_host []) [].
Proof.
  assert (H : same_surroundings
                (Sample.windows_host ["check_browsers.py"; "--all"]%string)
                (Sample.windows_host [])).
  { repeat split. }
  split; [discriminate |]. split; [exact H |].
  apply (script_ignores_argv _ _ [] [] H).
Defined.

(** A host with an empty environment. *)
Lemma unset_path_scans_nothing_witness :
  environ (Sample.bare_host ∅) !! "PATH"%string = None
  /\ paths (Sample.bare_host ∅) = [""%string]
  /\ path_env_scan (Sample.bare_host ∅) []
     = (Returns tt, [EvPrint Msg.hdr_env; EvIsdir ""])
  /\ exists log,
       check_browsers (Sample.bare_host ∅) [] = (Returns tt, log).
Proof.
  assert (H : environ (Sample.bare_host ∅) !! "PATH"%string = None).
  { reflexivity. }
  assert (Hall : forall line, accepts (Sample.bare_host ∅) line).
  { intros line. reflexivity. }
  destruct (unset_path_scans_nothing (Sample.bare_host ∅)
              (browsers (Sample.bare_host ∅)) [] H)
    as (_ & Hpaths & Hscan & Hrun).
  destruct (Hrun (accepted_lines _ _ Hall)) as (l1 & l2 & l4 & _ & _ & _ & E).
  split; [exact H |]. split; [exact Hpaths |].
  split; [apply Hscan, Hall |].
  exists l4. exact E.
Defined.

(** ** The report on the sample hosts *)

(** Step 2 on the Windows host: Chrome is found, the others are not. *)
Lemma known_path_scan_report_witness :
  (forall line, accepts (Sample.windows_host []) line)
  /\ exists log',
       known_path_scan (Sample.windows_host [])
         (browsers (Sample.windows_host [])) []
       = (Returns tt, log')
       /\ stdout log'
          = [ ("✓ Chrome: " +:+ Sample.chrome2)%string;
              "✗ Edge: 未找到"%string;
              "✗ Firefox: 未找到"%string;
              "✗ Opera: 未找到"%string ]
       /\ length (stdout log') = 4.
Proof.
  assert (Hall : forall line, accepts (Sample.windows_host []) line).
  { intros line. reflexivity. }
  split; [exact Hall |].
  apply (known_path_scan_report (Sample.windows_host [])
           (browsers (Sample.windows_host [])) []).
  apply accepted_lines, Hall.
Defined.

(** Chrome on the Windows host: a candidate exists, the line is a found
    line. *)
Lemma scan_browser_line_meaning_witness :
  (exists p,
     In p [Sample.chrome1; Sample.chrome2; Sample.chrome3]
     /\ path_exists (Sample.windows_host []) p = true)
  /\ exists log' line p,
       scan_browser (Sample.windows_host [])
         ("Chrome"%string, [Sample.chrome1; Sample.chrome2; Sample.chrome3]) []
       = (Returns tt, log')
       /\ stdout log' = [line]
       /\ line = ("✓ " +:+ "Chrome" +:+ ": " +:+ p)%string.
Proof.
  assert (H : exists p,
             In p [Sample.chrome1; Sample.chrome2; Sample.chrome3]
             /\ path_exists (Sample.windows_host []) p = true).
  { exists Sample.chrome2. split; [right; left; reflexivity | reflexivity]. }
  split; [exact H |].
  destruct (scan_browser_line_meaning (Sample.windows_host []) "Chrome"
              [Sample.chrome1; Sample.chrome2; Sample.chrome3] [] eq_refl)
    as (log' & line & E & Hout & _ & _ & Hfound).
  destruct (Hfound H) as (p & Hp).
  exists log', line, p. auto.
Defined.

(** Step 2 on the Windows host looks at eight of its nine candidates: not
    at the third of Chrome. *)
Lemma known_path_scan_checks_witness :
  (forall line, accepts (Sample.windows_host []) line)
  /\ exists log',
       known_path_scan (Sample.windows_host [])
         (browsers (Sample.windows_host [])) []
       = (Returns tt, log')
       /\ length (probes log') = 8.
Proof.
  assert (Hall : forall line, accepts (Sample.windows_host []) line).
  { intros line. reflexivity. }
  split; [exact Hall |].
  destruct (known_path_scan_checks (Sample.windows_host [])
              (browsers (Sample.windows_host [])) []
              (accepted_lines _ _ Hall))
    as (log' & E & Hpr & _).
  exists log'. split; [exact E |]. rewrite Hpr. reflexivity.
Defined.

(** Step 3 on the Windows host asks [isdir] of its three entries. *)
Lemma path_scan_checks_witness :
  (forall line, accepts (Sample.windows_host []) line)
  /\ exists log',
       path_env_scan (Sample.windows_host []) [] = (Returns tt, log')
       /\ List.filter is_isdir log'
          = [EvIsdir "C:\bin"; EvIsdir "D:\gone"; EvIsdir "C:\tools"].
Proof.
  assert (Hall : forall line, accepts (Sample.windows_host []) line).
  { intros line. reflexivity. }
  split; [exact Hall |].
  destruct (path_scan_checks (Sample.windows_host []) []
              (accepted_lines _ _ Hall))
    as (log' & E & _ & Hdir).
  exists log'. split; [exact E | exact Hdir].
Defined.

(** Two semicolons, three entries, three [isdir] calls. *)
Lemma path_entry_count_witness :
  (forall line, accepts (Sample.windows_host []) line)
  /\ length (paths (Sample.windows_host [])) = 3
  /\ exists log',
       path_env_scan (Sample.windows_host []) [] = (Returns tt, log')
       /\ length (List.filter is_isdir log') = 3.
Proof.
  assert (Hall : forall line, accepts (Sample.windows_host []) line).
  { intros line. reflexivity. }
  destruct (path_entry_count (Sample.windows_host []) []) as (Hlen & Hrun).
  split; [exact Hall |]. split; [exact Hlen |].
  apply Hrun, accepted_lines, Hall.
Defined.

(** The PATH of the Windows host, cut at its first semicolon. *)
Lemma path_scan_composes_witness :
  env_path (Sample.windows_host [])
  = ("C:\bin" +:+ String ";" "D:\gone;C:\tools")%string
  /\ paths (Sample.windows_host [])
     = split "C:\bin" ";" ++ split "D:\gone;C:\tools" ";"
  /\ exists log',
       path_env_scan (Sample.windows_host []) [] = (Returns tt, log')
       /\ stdout log'
          = Msg.hdr_env
            :: map (occurrence_line (Sample.windows_host []))
                 (occurrences (Sample.windows_host []) (split "C:\bin" ";"))
            ++ map (occurrence_line (Sample.windows_host []))
                 (occurrences (Sample.windows_host [])
                    (split "D:\gone;C:\tools" ";")).
Proof.
  assert (H : env_path (Sample.windows_host [])
              = ("C:\bin" +:+ String ";" "D:\gone;C:\tools")%string).
  { reflexivity. }
  destruct (path_scan_composes (Sample.windows_host []) "C:\bin"
              "D:\gone;C:\tools" [] H) as (Hpaths & Hrun).
  split; [exact H |]. split; [exact Hpaths |].
  apply Hrun, accepted_lines. intros line. reflexivity.
Defined.

(** The whole report of the module on the Windows host. *)
Lemma script_report_witness :
  (forall line, accepts (Sample.windows_host []) line)
  /\ exists log',
       check_browsers (Sample.windows_host []) [] = (Returns tt, log')
       /\ stdout log'
          = [ Msg.title;
              Msg.hdr_launch;
              "打开浏览器时出错: no browser registered"%string;
              Msg.hdr_known;
              ("✓ Chrome: " +:+ Sample.chrome2)%string;
              "✗ Edge: 未找到"%string;
              "✗ Firefox: 未找到"%string;
              "✗ Opera: 未找到"%string;
              Msg.hdr_env;
              "✓ 在 PATH 中找到: C:\bin\chrome.exe"%string;
              "✓ 在 PATH 中找到: C:\tools\chrome.exe"%string;
              Msg.hdr_controller;
              "获取浏览器信息时出错: could not locate runnable browser"%string ].
Proof.
  assert (Hall : forall line, accepts (Sample.windows_host []) line).
  { intros line. reflexivity. }
  split; [exact Hall |].
  destruct (script_report (Sample.windows_host [])
              (browsers (Sample.windows_host [])) []
              (accepted_lines _ _ Hall))
    as (log' & E & Hout & _).
  exists log'. split; [exact E | exact Hout].
Defined.

(** The two services of the Windows host are called once each. *)
Lemma script_platform_calls_witness :
  (forall line, accepts (Sample.windows_host []) line)
  /\ exists log',
       check_browsers (Sample.windows_host []) [] = (Returns tt, log')
       /\ List.filter is_service log' = [EvOpen Msg.url; EvGet].
Proof.
  assert (Hall : forall line, accepts (Sample.windows_host []) line).
  { intros line. reflexivity. }
  split; [exact Hall |].
  destruct (script_platform_calls (Sample.windows_host [])
              (browsers (Sample.windows_host [])) []
              (accepted_lines _ _ Hall))
    as (log' & E & _ & Hsvc).
  exists log'. split; [exact E | exact Hsvc].
Defined.

(** The Windows host without and with a default browser. *)
Lemma report_apart_from_services_witness :
  same_file_system (Sample.windows_host []) windows_host_with_default
  /\ launch_line (Sample.windows_host []) <> launch_line windows_host_with_default
  /\ exists middle log1 log2,
       check_browsers (Sample.windows_host []) [] = (Returns tt, log1)
       /\ check_browsers windows_host_with_default [] = (Returns tt, log2)
       /\ stdout log1
          = [Msg.title; Msg.hdr_launch; launch_line (Sample.windows_host [])]
            ++ middle
            ++ [Msg.hdr_controller; controller_report (Sample.windows_host [])]
       /\ stdout log2
          = [Msg.title; Msg.hdr_launch; launch_line windows_host_with_default]
            ++ middle
            ++ [Msg.hdr_controller; controller_report windows_host_with_default].
Proof.
  assert (H : same_file_system (Sample.windows_host [])
                windows_host_with_default).
  { repeat split. }
  split; [exact H |]. split; [discriminate |].
  apply (report_apart_from_services (Sample.windows_host [])
           windows_host_with_default (browsers (Sample.windows_host [])) [] H);
    apply accepted_lines; intros line; reflexivity.
Defined.

(** On the host whose match cannot be written, step 3 raises after its
    header, within the bound; on the Windows host it returns. *)
Lemma path_scan_line_bound_witness :
  fst (path_env_scan Sample.odd_path_host []) = Raises Sample.codec_error
  /\ length (stdout (snd (path_env_scan Sample.odd_path_host []))) <= 6
  /\ exists log', path_env_scan (Sample.windows_host []) [] = (Returns tt, log').
Proof.
  destruct (path_scan_line_bound Sample.odd_path_host []) as (Hbound & _).
  destruct (path_scan_line_bound (Sample.windows_host []) []) as (_ & Hrun).
  split; [reflexivity |]. split.
  - exact (Hbound _ _ (surjective_pairing _)).
  - apply Hrun, accepted_lines. intros line. reflexivity.
Defined.
